(** * terraform-provider-coverage: the examples-validation data source

    A shallow embedding of [findMissingTests] and [searchFile] of package
    [provider] (the examples-validation data source) together with
    the parts of the Go standard library they call: [strings.Contains],
    [slices.Contains], [filepath.Base], [filepath.Join], [bufio.Scanner]
    with its default line splitter, and the two regular expressions.

    A Go [string] is a sequence of bytes; it is modelled by [string], whose
    characters are the 8-bit [ascii] values. *)

From Stdlib Require Import Bool List Ascii String Permutation.
Import ListNotations.

Set Implicit Arguments.

Open Scope string_scope.
Open Scope list_scope.

Infix "+++" := String.append (right associativity, at level 60).

(* ================================================================= *)
(** ** Byte strings *)

(** The double quote, byte 34. *)
Definition dquote : ascii := "034".

Module Str.

(** Every byte of the string satisfies [p]. *)
Fixpoint all (p : ascii -> bool) (s : string) : bool :=
  match s with
  | EmptyString => true
  | String c s' => p c && all p s'
  end.

(** The byte [c] occurs in the string. *)
Fixpoint mem (c : ascii) (s : string) : bool :=
  match s with
  | EmptyString => false
  | String x s' => Ascii.eqb x c || mem c s'
  end.

(** The last byte of the string, if any. *)
Fixpoint last (s : string) : option ascii :=
  match s with
  | EmptyString => None
  | String c EmptyString => Some c
  | String _ s' => last s'
  end.

(** [n] copies of the byte [c]. *)
Fixpoint replicate (n : nat) (c : ascii) : string :=
  match n with
  | O => EmptyString
  | S n' => String c (replicate n' c)
  end.

(** The pieces of [s] between the occurrences of the separator [sep]:
    a string with [n] separators has [n + 1] pieces. *)
Fixpoint split (sep : ascii) (s : string) : list string :=
  match s with
  | EmptyString => [EmptyString]
  | String c s' =>
      if Ascii.eqb c sep then EmptyString :: split sep s'
      else match split sep s' with
           | p :: ps => String c p :: ps
           | [] => [String c EmptyString]
           end
  end.

End Str.

(* ================================================================= *)
(** ** Package regexp

    The two patterns of [searchFile] use literals, the classes [\s] and
    [.], the repetitions [*] and [+], and the anchors [^] and [$].  A
    regular expression is a term of [regex]; matching is by Brzozowski
    derivatives.  The engine decodes UTF-8, but every literal of the two
    patterns is ASCII and an ASCII byte always starts a rune (an invalid
    byte is decoded as one rune of width one), so [.] followed by an ASCII
    literal consumes exactly the bytes other than a line feed. *)

Module regexp.

Inductive regex : Type :=
| Fail
| Eps
| Class (p : ascii -> bool)
| Cat (r1 r2 : regex)
| Alt (r1 r2 : regex)
| Star (r : regex).

(** A literal string. *)
Fixpoint Lit (s : string) : regex :=
  match s with
  | EmptyString => Eps
  | String c s' => Cat (Class (Ascii.eqb c)) (Lit s')
  end.

(** [r+] *)
Definition Plus (r : regex) : regex := Cat r (Star r).

(** The Perl class [\s] of RE2 syntax: [[\t\n\f\r ]]. *)
Definition isSpace (c : ascii) : bool :=
  Ascii.eqb c "009" || Ascii.eqb c "010" || Ascii.eqb c "012"
  || Ascii.eqb c "013" || Ascii.eqb c " ".

(** [.] without the [s] flag: any character but a line feed. *)
Definition isDot (c : ascii) : bool := negb (Ascii.eqb c "010").

Definition space : regex := Class isSpace.
Definition dot : regex := Class isDot.

Fixpoint nullable (r : regex) : bool :=
  match r with
  | Fail => false
  | Eps => true
  | Class _ => false
  | Cat r1 r2 => nullable r1 && nullable r2
  | Alt r1 r2 => nullable r1 || nullable r2
  | Star _ => true
  end.

Fixpoint deriv (c : ascii) (r : regex) : regex :=
  match r with
  | Fail => Fail
  | Eps => Fail
  | Class p => if p c then Eps else Fail
  | Cat r1 r2 =>
      if nullable r1 then Alt (Cat (deriv c r1) r2) (deriv c r2)
      else Cat (deriv c r1) r2
  | Alt r1 r2 => Alt (deriv c r1) (deriv c r2)
  | Star r1 => Cat (deriv c r1) (Star r1)
  end.

(** The whole of [s] is matched by [r]. *)
Fixpoint accepts (r : regex) (s : string) : bool :=
  match s with
  | EmptyString => nullable r
  | String c s' => accepts (deriv c r) s'
  end.

(** The language of a regular expression. *)
Inductive Matches : regex -> string -> Prop :=
| MEps : Matches Eps EmptyString
| MClass p c : p c = true -> Matches (Class p) (String c EmptyString)
| MCat r1 r2 s1 s2 :
    Matches r1 s1 -> Matches r2 s2 -> Matches (Cat r1 r2) (s1 +++ s2)
| MAltL r1 r2 s : Matches r1 s -> Matches (Alt r1 r2) s
| MAltR r1 r2 s : Matches r2 s -> Matches (Alt r1 r2) s
| MStarNil r : Matches (Star r) EmptyString
| MStarCons r s1 s2 :
    Matches r s1 -> Matches (Star r) s2 -> Matches (Star r) (s1 +++ s2).

(** [re.MatchString(s)] for a pattern [^r$]: without the [m] flag [^]
    holds only at the start of the text and [$] only at its end, so the
    unanchored search succeeds exactly when [r] matches all of [s]. *)
Definition MatchString (r : regex) (s : string) : bool := accepts r s.

(** The body of [^\s*source\s*=\s*".+examples.+"$]. *)
Definition sourceLine : regex :=
  Cat (Star space)
 (Cat (Lit "source")
 (Cat (Star space)
 (Cat (Lit "=")
 (Cat (Star space)
 (Cat (Lit (String dquote EmptyString))
 (Cat (Plus dot)
 (Cat (Lit "examples")
 (Cat (Plus dot)
      (Lit (String dquote EmptyString)))))))))).

(** The pattern ["(.*?)"]. *)
Definition quoted : regex := Cat (Lit (String dquote EmptyString)) (Cat (Star dot) (Lit (String dquote EmptyString))).

(** [re.FindAllStringSubmatch(s, -1)] for the pattern ["(.*?)"], keeping of
    each match the capture group [match[1]].  The search is leftmost and
    the star is lazy, so a match starts at the first double quote that is
    followed, before any line feed, by another double quote, and ends at
    the nearest such quote; the search resumes after the closing quote.
    [inside] is [None] while an opening quote is looked for and [Some acc]
    after one, [acc] being the bytes read since. *)
Fixpoint findQuoted (inside : option string) (s : string) : list string :=
  match s with
  | EmptyString => []
  | String c s' =>
      match inside with
      | None =>
          if Ascii.eqb c dquote then findQuoted (Some EmptyString) s'
          else findQuoted None s'
      | Some acc =>
          if Ascii.eqb c dquote then acc :: findQuoted None s'
          else if Ascii.eqb c "010" then findQuoted None s'
          else findQuoted (Some (acc +++ String c EmptyString)) s'
      end
  end.

Definition FindAllQuotedSubmatch (s : string) : list string :=
  findQuoted None s.

End regexp.

(* ================================================================= *)
(** ** Packages strings and slices *)

Module strings.

Fixpoint HasPrefix (s prefix : string) : bool :=
  match prefix, s with
  | EmptyString, _ => true
  | String p prefix', String c s' => Ascii.eqb c p && HasPrefix s' prefix'
  | String _ _, EmptyString => false
  end.

(** [strings.Contains(s, substr)]: [substr] occurs within [s]. *)
Fixpoint Contains (s substr : string) : bool :=
  HasPrefix s substr
  || match s with
     | EmptyString => false
     | String _ s' => Contains s' substr
     end.

End strings.

Module slices.

(** [slices.Contains(s, v)] on a slice of strings. *)
Definition Contains (s : list string) (v : string) : bool :=
  existsb (fun x => String.eqb x v) s.

End slices.

(* ================================================================= *)
(** ** Package path/filepath (Unix: separator [/], no volume names) *)

Module filepath.

Definition Separator : ascii := "/".

(** The loop [for len(path) > 0 && path[len(path)-1] == '/'] of [Base]. *)
Fixpoint stripTrailingSlashes (path : string) : string :=
  match path with
  | EmptyString => EmptyString
  | String c rest =>
      match stripTrailingSlashes rest with
      | EmptyString =>
          if Ascii.eqb c Separator then EmptyString else String c EmptyString
      | rest' => String c rest'
      end
  end.

(** The loop that finds the last separator, followed by
    [path = path[i+1:]]: [acc] is the element read since the last
    separator seen. *)
Fixpoint lastElement (acc path : string) : string :=
  match path with
  | EmptyString => acc
  | String c rest =>
      if Ascii.eqb c Separator then lastElement EmptyString rest
      else lastElement (acc +++ String c EmptyString) rest
  end.

(** [filepath.Base(path)]. *)
Definition Base (path : string) : string :=
  if String.eqb path EmptyString then "."
  else
    let path := stripTrailingSlashes path in
    let path := lastElement EmptyString path in
    if String.eqb path EmptyString then String Separator EmptyString
    else path.

(** The main loop of [Clean], element by element: empty and [.] elements
    are dropped, [..] removes the element before it when there is one
    above the [dotdot] mark ([poppable] counts these) and is otherwise
    kept on an unrooted path and dropped on a rooted one.  [out] is the
    output in reverse. *)
Fixpoint cleanElements (rooted : bool) (out : list string) (poppable : nat)
    (elems : list string) : list string :=
  match elems with
  | [] => rev out
  | e :: es =>
      if String.eqb e EmptyString || String.eqb e "." then
        cleanElements rooted out poppable es
      else if String.eqb e ".." then
        match poppable, out with
        | S k, _ :: out' => cleanElements rooted out' k es
        | _, _ =>
            if rooted then cleanElements rooted out poppable es
            else cleanElements rooted (".." :: out) 0 es
        end
      else cleanElements rooted (e :: out) (S poppable) es
  end.

(** [filepath.Clean(path)]. *)
Definition Clean (path : string) : string :=
  if String.eqb path EmptyString then "."
  else
    let rooted := strings.HasPrefix path "/" in
    let body :=
      String.concat "/" (cleanElements rooted [] 0 (Str.split Separator path)) in
    if rooted then String Separator body
    else if String.eqb body EmptyString then "." else body.

(** [filepath.Join(dir, name)]: empty elements are ignored and the rest
    is joined by the separator and cleaned. *)
Definition Join (dir name : string) : string :=
  if negb (String.eqb dir EmptyString) then
    Clean (dir +++ String Separator name)
  else if negb (String.eqb name EmptyString) then Clean name
  else EmptyString.

End filepath.

(* ================================================================= *)
(** ** Errors, the file system and the effects of the program *)

(** The [error] values the program can meet. *)
Inductive Error : Type :=
| PathError (op path : string)   (* *fs.PathError of os.ReadDir and os.Open *)
| ErrRead (path : string)        (* an I/O error of File.Read *)
| ErrTooLong.                    (* bufio.ErrTooLong *)

(** [fs.DirEntry]. *)
Record DirEntry : Type := { Name : string; IsDir : bool }.

(** What reading an opened file gives: the bytes delivered, and whether
    the reads end with an I/O error rather than with [io.EOF]. *)
Record FileData : Type := { delivered : string; fault : bool }.

(** The file system at call time.  [dirs p] is the listing of directory
    [p], sorted by file name as [os.ReadDir] returns it, or [None] when [p]
    cannot be listed; [files p] is [None] when [p] cannot be opened. *)
Record FileSystem : Type := {
  dirs : string -> option (list DirEntry);
  files : string -> option FileData
}.

(** What the program does to its environment. *)
Inductive Event : Type :=
| EvReadDir (path : string)
| EvOpen (path : string)
| EvClose (path : string)
| EvLog (msg : string).

Record World : Type := { fsys : FileSystem; trace : list Event }.

Definition emit (e : Event) (w : World) : World :=
  {| fsys := fsys w; trace := trace w ++ [e] |}.

(** A call returns or panics. *)
Inductive Outcome (A : Type) : Type :=
| Return (a : A)
| Panic (e : Error).

Arguments Return {A} a.
Arguments Panic {A} e.

Definition M (A : Type) : Type := World -> Outcome A * World.

Definition ret {A} (a : A) : M A := fun w => (Return a, w).

Definition bind {A B} (m : M A) (k : A -> M B) : M B :=
  fun w =>
    match m w with
    | (Return a, w') => k a w'
    | (Panic e, w') => (Panic e, w')
    end.

Definition panic {A} (e : Error) : M A := fun w => (Panic e, w).

(** [defer d] before [body]: [d] runs when [body] returns or panics. *)
Definition defer {A} (d : M unit) (body : M A) : M A :=
  fun w =>
    match body w with
    | (r, w') => (r, snd (d w'))
    end.

Notation "x <- m ;; k" := (bind m (fun x => k))
  (at level 61, m at next level, right associativity).
Notation "m ;;; k" := (bind m (fun _ => k))
  (at level 61, right associativity).

(** A [for ... range] loop that updates the local variable [acc]. *)
Fixpoint forRange {A S} (l : list A) (body : S -> A -> M S) (acc : S) : M S :=
  match l with
  | [] => ret acc
  | x :: l' => acc' <- body acc x ;; forRange l' body acc'
  end.

Module tflog.

Definition Info (msg : string) : M unit :=
  fun w => (Return tt, emit (EvLog msg) w).

End tflog.

(** A Go result pair [(v, err)] of which exactly one component is set. *)
Inductive result (A : Type) : Type :=
| Ok (v : A)
| Err (err : Error).

Arguments Ok {A} v.
Arguments Err {A} err.

Module os.

(** An opened file. *)
Record File : Type := { fileName : string; fileData : FileData }.

(** [os.ReadDir(name)]. *)
Definition ReadDir (name : string) : M (result (list DirEntry)) :=
  fun w =>
    (Return match dirs (fsys w) name with
            | Some entries => Ok entries
            | None => Err (PathError "open" name)
            end,
     emit (EvReadDir name) w).

(** [os.Open(name)]. *)
Definition Open (name : string) : M (result File) :=
  fun w =>
    (Return match files (fsys w) name with
            | Some d => Ok {| fileName := name; fileData := d |}
            | None => Err (PathError "open" name)
            end,
     emit (EvOpen name) w).

(** [f.Close()]. *)
Definition Close (f : File) : M unit :=
  fun w => (Return tt, emit (EvClose (fileName f)) w).

End os.

(* ================================================================= *)
(** ** Package bufio: a [Scanner] with the default split function *)

Module bufio.

(** The largest token the default buffer can hold: [64 * 1024] bytes. *)
Definition MaxScanTokenSize : nat := 64 * 1024.

(** [dropCR] drops one terminal carriage return. *)
Fixpoint dropCR (data : string) : string :=
  match data with
  | EmptyString => EmptyString
  | String c EmptyString =>
      if Ascii.eqb c "013" then EmptyString else data
  | String c rest => String c (dropCR rest)
  end.

(** The tokens that successive calls of [Scan] return with [ScanLines],
    and the error that ends them, over the pieces of the input between
    line feeds.  A piece followed by a line feed is a token; the last
    piece is one when it is not empty (at end of input, and also when the
    reads ended with an error, the split function being called with
    [atEOF] set).  A piece of [max] bytes or more fills the buffer before
    its line feed is seen: [Scan] then returns false with [ErrTooLong]. *)
Fixpoint scanPieces (max : nat) (readErr : option Error)
    (pieces : list string) : list string * option Error :=
  match pieces with
  | [] => ([], readErr)
  | [final] =>
      if String.eqb final EmptyString then ([], readErr)
      else if Nat.leb max (String.length final) then ([], Some ErrTooLong)
      else ([dropCR final], readErr)
  | piece :: rest =>
      if Nat.leb max (String.length piece) then ([], Some ErrTooLong)
      else
        let (tokens, err) := scanPieces max readErr rest in
        (dropCR piece :: tokens, err)
  end.

(** A scanner, by what its calls of [Scan] and [Text] yield in turn and
    what [Err] returns afterwards. *)
Record Scanner : Type := { tokens : list string; Err : option Error }.

Definition NewScanner (f : os.File) : Scanner :=
  let d := os.fileData f in
  let readErr := if fault d then Some (ErrRead (os.fileName f)) else None in
  let (ts, e) :=
    scanPieces MaxScanTokenSize readErr (Str.split "010" (delivered d)) in
  {| tokens := ts; Err := e |}.

End bufio.

(* ================================================================= *)
(** ** The data source: [searchFile] and [findMissingTests] *)

Definition searchFile (file pattern examplesDirectory : string)
  : M (list string) :=
  opened <- os.Open file ;;
  match opened with
  | Err err => panic err
  | Ok f =>
      defer (os.Close f)
        (let r := regexp.sourceLine in
         let scanner := bufio.NewScanner f in
         forRange (bufio.tokens scanner)
           (fun result line =>
              if regexp.MatchString r line then
                let matches := regexp.FindAllQuotedSubmatch line in
                forRange matches
                  (fun result m =>
                     let strippedText := filepath.Base m in
                     tflog.Info strippedText ;;;
                     ret (result ++ [strippedText]))
                  result
              else ret result)
           [])
  end.

Definition findMissingTests (examplesDirectory testsDirectory filter : string)
  : M (list string) :=
  let sourceFilter := "source = " +++ String dquote "./examples" in
  listed <- os.ReadDir examplesDirectory ;;
  match listed with
  | Err err => panic err
  | Ok files =>
      let examples :=
        fold_left
          (fun examples file =>
             if IsDir file then examples ++ [Name file] else examples)
          files [] in
      listed <- os.ReadDir testsDirectory ;;
      match listed with
      | Err err => panic err
      | Ok testFiles =>
          tflog.Info ("Source Filter: '" +++ sourceFilter +++ "'") ;;;
          tests <-
            forRange testFiles
              (fun tests file =>
                 if negb (IsDir file)
                    && strings.Contains (Name file) filter
                 then
                   let filepath := filepath.Join testsDirectory (Name file) in
                   tflog.Info filepath ;;;
                   found <- searchFile filepath sourceFilter examplesDirectory ;;
                   ret (tests ++ found)
                 else ret tests)
              [] ;;
          let missing :=
            fold_left
              (fun missing e =>
                 if negb (slices.Contains tests e) then missing ++ [e]
                 else missing)
              examples [] in
          ret missing
      end
  end.

(** What [searchFile] appends to [result] for one scanned line. *)
Definition lineReferences (line : string) : list string :=
  if regexp.MatchString regexp.sourceLine line
  then map filepath.Base (regexp.FindAllQuotedSubmatch line)
  else [].

(** The lines [searchFile] is given by the scanner for the file [file]
    holding [d]. *)
Definition scannedLines (file : string) (d : FileData) : list string :=
  bufio.tokens (bufio.NewScanner {| os.fileName := file; os.fileData := d |}).

(** All the references [searchFile] returns for a file. *)
Definition fileReferences (file : string) (d : FileData) : list string :=
  flat_map lineReferences (scannedLines file d).

(* ================================================================= *)
(** ** Vocabulary of the specification *)

(** [sub] occurs in [s]. *)
Definition Substring (sub s : string) : Prop :=
  exists pre post, s = pre +++ sub +++ post.

(** The line-level pattern as the specification words it: optional
    whitespace, [source], optional whitespace, [=], optional whitespace and
    a double-quoted string whose contents hold [examples] anywhere. *)
Definition SpecLinePattern (line : string) : Prop :=
  exists ws1 ws2 ws3 contents,
    line = ws1 +++ "source" +++ ws2 +++ "=" +++ ws3
           +++ String dquote (contents +++ String dquote EmptyString)
    /\ Str.all regexp.isSpace ws1 = true
    /\ Str.all regexp.isSpace ws2 = true
    /\ Str.all regexp.isSpace ws3 = true
    /\ Substring "examples" contents.

(** The lines the compiled pattern accepts: between the first double
    quote and the one that ends the line, [examples] has at least one
    byte before it and at least one after it, none of them a line feed. *)
Definition SourceLineShape (line : string) : Prop :=
  exists ws1 ws2 ws3 x y,
    line = ws1 +++ "source" +++ ws2 +++ "=" +++ ws3
           +++ String dquote (x +++ "examples" +++ y +++ String dquote EmptyString)
    /\ Str.all regexp.isSpace ws1 = true
    /\ Str.all regexp.isSpace ws2 = true
    /\ Str.all regexp.isSpace ws3 = true
    /\ x <> EmptyString /\ Str.all regexp.isDot x = true
    /\ y <> EmptyString /\ Str.all regexp.isDot y = true.

(** Of the pieces of a line between double quotes, those of odd rank
    that a later quote closes. *)
Fixpoint oddPieces (pieces : list string) : list string :=
  match pieces with
  | _ :: p :: ((_ :: _) as rest) => p :: oddPieces rest
  | _ => []
  end.

(** The double-quoted tokens of a line. *)
Definition quotedTokens (line : string) : list string :=
  oddPieces (Str.split dquote line).

(** The last of the pieces of a path between slashes. *)
Definition lastSegment (path : string) : string :=
  List.last (Str.split "/" path) EmptyString.

(** The Example Enumerator: the names of the directories of a listing, in
    listing order. *)
Definition exampleNames (entries : list DirEntry) : list string :=
  map Name (List.filter IsDir entries).

(** The Test File Selector: the entries that are not directories and whose
    name holds the filter, and their paths. *)
Definition selected (filter : string) (entry : DirEntry) : bool :=
  negb (IsDir entry) && strings.Contains (Name entry) filter.

Definition selectedPaths (testsDirectory filter : string)
    (entries : list DirEntry) : list string :=
  map (fun entry => filepath.Join testsDirectory (Name entry))
      (List.filter (selected filter) entries).

(** The Missing-Set Computer: the examples not among the references, in
    the order of the examples. *)
Definition missingOf (examples refs : list string) : list string :=
  List.filter (fun e => negb (slices.Contains refs e)) examples.

(** The ReferenceSet: the references of the files at [paths] holding
    [contents], one after the other. *)
Definition gathered (paths : list string) (contents : list FileData)
  : list string :=
  flat_map (fun pd => fileReferences (fst pd) (snd pd)) (combine paths contents).

(** Every path of [paths] can be opened, and [contents] is what they hold. *)
Definition Readable (fs : FileSystem) (paths : list string)
    (contents : list FileData) : Prop :=
  Forall2 (fun p d => files fs p = Some d) paths contents.

(** The paths of all the entries of a listing that are not directories. *)
Definition plainFilePaths (testsDirectory : string) (entries : list DirEntry)
  : list string :=
  map (fun entry => filepath.Join testsDirectory (Name entry))
      (List.filter (fun entry => negb (IsDir entry)) entries).

(* ================================================================= *)
(** ** What a run computes

    The result and the events of the program as functions of the file
    system; [RunFacts] proves that the program computes them. *)

(** What [findQuoted] does once an opening quote is read, on the pieces
    of the rest of the line. *)
Definition closing (acc : string) (pieces : list string) : list string :=
  match pieces with
  | p :: ((_ :: _) as rest) => (acc +++ p) :: oddPieces rest
  | _ => []
  end.

(** The world after the events [evs]. *)
Definition extend (w : World) (evs : list Event) : World :=
  {| fsys := fsys w; trace := trace w ++ evs |}.

(** The references gathered from the files at [paths] after [tests], or
    the first failure to open one, and the events on the way. *)
Fixpoint scanAll (fs : FileSystem) (paths : list string) (tests : list string)
  : Outcome (list string) * list Event :=
  match paths with
  | [] => (Return tests, [])
  | p :: ps =>
      match files fs p with
      | None => (Panic (PathError "open" p), [EvLog p; EvOpen p])
      | Some d =>
          let refs := fileReferences p d in
          let (r, evs) := scanAll fs ps (tests ++ refs) in
          (r, EvLog p :: EvOpen p :: map EvLog refs ++ EvClose p :: evs)
      end
  end.

(** The paths given to [os.Open], in order. *)
Fixpoint opens (tr : list Event) : list string :=
  match tr with
  | [] => []
  | EvOpen p :: tr' => p :: opens tr'
  | _ :: tr' => opens tr'
  end.

(** The result and the events of [findMissingTests], read off the file
    system. *)
Definition outcomeOf (fs : FileSystem)
    (examplesDirectory testsDirectory filter : string)
  : Outcome (list string) * list Event :=
  match dirs fs examplesDirectory with
  | None =>
      (Panic (PathError "open" examplesDirectory), [EvReadDir examplesDirectory])
  | Some files =>
      match dirs fs testsDirectory with
      | None =>
          (Panic (PathError "open" testsDirectory),
           [EvReadDir examplesDirectory; EvReadDir testsDirectory])
      | Some testFiles =>
          let (r, evs) :=
            scanAll fs (selectedPaths testsDirectory filter testFiles) [] in
          (match r with
           | Return tests => Return (missingOf (exampleNames files) tests)
           | Panic e => Panic e
           end,
           EvReadDir examplesDirectory :: EvReadDir testsDirectory
           :: EvLog ("Source Filter: 'source = " +++ String dquote "./examples'")
           :: evs)
      end
  end.

(* ================================================================= *)
(** ** Sample inputs *)

Module Sample.

(** [s] between double quotes. *)
Definition quote (s : string) : string :=
  String dquote (s +++ String dquote EmptyString).

Definition lf : string := String "010" EmptyString.

Definition dir (name : string) : DirEntry := {| Name := name; IsDir := true |}.
Definition file (name : string) : DirEntry := {| Name := name; IsDir := false |}.

(** A file read to its end without error. *)
Definition whole (content : string) : FileData :=
  {| delivered := content; fault := false |}.

(** A file system with the examples directory [examples], the tests
    directory [tests] and the files [contents] under [tests]. *)
Definition tree (examples tests : list DirEntry)
    (contents : list (string * FileData)) : FileSystem :=
  {| dirs := fun p =>
       if String.eqb p "examples" then Some examples
       else if String.eqb p "tests" then Some tests
       else None;
     files := fun p =>
       match find (fun entry => String.eqb (fst entry) p) contents with
       | Some entry => Some (snd entry)
       | None => None
       end |}.

Definition start (fs : FileSystem) : World := {| fsys := fs; trace := [] |}.

(** [source = "examples"] *)
Definition bareLine : string := "source = " +++ quote "examples".

(** [source = ] followed by an empty quoted string, a space and the
    quoted string [./examples/a/]. *)
Definition slashLine : string :=
  "source = " +++ quote EmptyString +++ " " +++ quote "./examples/a/".

(** [source = "./examples/a" "./examples/b"] *)
Definition twoTokens : string :=
  "source = " +++ quote "./examples/a" +++ " " +++ quote "./examples/b".

(** [  source = "./examples/basic"] *)
Definition basicLine : string := "  source = " +++ quote "./examples/basic".

(** The end-to-end scene: examples [advanced] and [basic], and
    [tests/basic_test.cfg] holding [basicLine]. *)
Definition endToEnd : FileSystem :=
  tree [dir "advanced"; dir "basic"] [file "basic_test.cfg"]
       [("tests/basic_test.cfg", whole (basicLine +++ lf))].

(** Examples [a] and [b]; the test file refers to [a], then has a line of
    [64 * 1024] bytes, then refers to [b]. *)
Definition longLine : FileData :=
  whole (("source = " +++ quote "./examples/a") +++ lf
         +++ Str.replicate bufio.MaxScanTokenSize "x" +++ lf
         +++ ("source = " +++ quote "./examples/b") +++ lf).

Definition withLongLine : FileSystem :=
  tree [dir "a"; dir "b"] [file "main_test.cfg"]
       [("tests/main_test.cfg", longLine)].

(** The same examples; reading the test file fails after its first line. *)
Definition faulty : FileData :=
  {| delivered := ("source = " +++ quote "./examples/a") +++ lf;
     fault := true |}.

Definition withFault : FileSystem :=
  tree [dir "a"; dir "b"] [file "main_test.cfg"]
       [("tests/main_test.cfg", faulty)].

(** A tests directory whose only file does not carry the filter. *)
Definition unfiltered : FileSystem :=
  tree [dir "advanced"; dir "basic"] [file "notes.txt"]
       [("tests/notes.txt",
         whole (("source = " +++ quote "./examples/advanced") +++ lf))].

End Sample.

(* ================================================================= *)
(** ** Reading a trace: the files closed and the handles held *)

(** The paths given to [Close], in order. *)
Fixpoint closes (tr : list Event) : list string :=
  match tr with
  | [] => []
  | EvClose p :: tr' => p :: closes tr'
  | _ :: tr' => closes tr'
  end.

(** The messages logged, in order. *)
Fixpoint logs (tr : list Event) : list string :=
  match tr with
  | [] => []
  | EvLog msg :: tr' => msg :: logs tr'
  | _ :: tr' => logs tr'
  end.

(** [held] is the file open at the start of [tr].  The events are well
    bracketed when a file is opened only while none is held, a file that
    opens is the next one closed, and none is held at the end.  An
    [os.Open] that fails holds nothing. *)
Fixpoint wellBracketed (fs : FileSystem) (held : option string)
    (tr : list Event) : bool :=
  match tr with
  | [] => match held with None => true | Some _ => false end
  | EvOpen p :: tr' =>
      match held with
      | Some _ => false
      | None =>
          wellBracketed fs
            (match files fs p with Some _ => Some p | None => None end) tr'
      end
  | EvClose p :: tr' =>
      match held with
      | Some q => String.eqb p q && wellBracketed fs None tr'
      | None => false
      end
  | _ :: tr' => wellBracketed fs held tr'
  end.

(** The scanned line is short enough for the scanner's buffer. *)
Definition fitsBuffer (piece : string) : bool :=
  negb (Nat.leb bufio.MaxScanTokenSize (String.length piece)).

(** The content with a carriage return before every line feed. *)
Fixpoint withCarriageReturns (content : string) : string :=
  match content with
  | EmptyString => EmptyString
  | String c rest =>
      if Ascii.eqb c "010"
      then String "013" (String "010" (withCarriageReturns rest))
      else String c (withCarriageReturns rest)
  end.

(** A carriage return after every piece but the last. *)
Fixpoint returnsAdded (pieces : list string) : list string :=
  match pieces with
  | p :: ((_ :: _) as rest) => (p +++ String "013" EmptyString) :: returnsAdded rest
  | _ => pieces
  end.

(** The line, followed by a carriage return, fits the buffer, and it does
    not end with a carriage return itself. *)
Definition plainLine (piece : string) : bool :=
  fitsBuffer (piece +++ String "013" EmptyString)
  && negb (match Str.last piece with
           | Some c => Ascii.eqb c "013"
           | None => false
           end).

(* ================================================================= *)
(** ** The plugin framework values the data source handles *)

Module types.

(** [types.String]: null, unknown or a known string. *)
Inductive String : Type :=
| StringNull
| StringUnknown
| StringValue (value : string).

(** [s.ValueString()]: the known value, or the empty string. *)
Definition ValueString (s : String) : string :=
  match s with
  | StringValue value => value
  | _ => EmptyString
  end.

End types.

Module diag.

Inductive Severity : Type := SeverityError | SeverityWarning.

Record Diagnostic : Type := {
  severity : Severity;
  summary : string;
  detail : string
}.

Definition Diagnostics : Type := list Diagnostic.

Definition isError (d : Diagnostic) : bool :=
  match severity d with SeverityError => true | SeverityWarning => false end.

Definition Equal (a b : Diagnostic) : bool :=
  Bool.eqb (isError a) (isError b)
  && String.eqb (summary a) (summary b)
  && String.eqb (detail a) (detail b).

Definition Contains (diags : Diagnostics) (d : Diagnostic) : bool :=
  existsb (Equal d) diags.

(** [diags.Append(more...)]: the diagnostics not yet held are added. *)
Definition Append (diags more : Diagnostics) : Diagnostics :=
  fold_left (fun acc d => if Contains acc d then acc else acc ++ [d])
            more diags.

Definition HasError (diags : Diagnostics) : bool := existsb isError diags.

End diag.

Module schema.

Inductive AttributeType : Type :=
| StringAttribute
| ListAttribute (stringElements : bool).

Record Attribute : Type := {
  Type_ : AttributeType;
  MarkdownDescription : string;
  Required : bool;
  Computed : bool
}.

(** [schema.Schema]: the description and the attributes by name. *)
Record Schema : Type := {
  Description : string;
  Attributes : list (string * Attribute)
}.

Definition lookup (s : Schema) (name : string) : option Attribute :=
  match find (fun entry => String.eqb (fst entry) name) (Attributes s) with
  | Some entry => Some (snd entry)
  | None => None
  end.

End schema.

(** [tflog.Trace]; the trace of events does not keep the level. *)
Definition tflog_Trace (msg : string) : M unit :=
  fun w => (Return tt, emit (EvLog msg) w).

(* ================================================================= *)
(** ** The data source: [Metadata], [Schema] and [Read] *)

Module ExamplesValidationDataSource.

Record MetadataRequest : Type := { ProviderTypeName : string }.
Record MetadataResponse : Type := { TypeName : string }.

Definition Metadata (req : MetadataRequest) : MetadataResponse :=
  {| TypeName := ProviderTypeName req +++ "_examples_validation" |}.

Definition Schema : schema.Schema :=
  {| schema.Description :=
       "Validate that there are tests for all examples in the example directory.";
     schema.Attributes :=
       [("id",
         {| schema.Type_ := schema.StringAttribute;
            schema.MarkdownDescription := "ID";
            schema.Required := false;
            schema.Computed := true |});
        ("examples_directory",
         {| schema.Type_ := schema.StringAttribute;
            schema.MarkdownDescription :=
              "Filepath to the examples directory for the module.";
            schema.Required := true;
            schema.Computed := false |});
        ("tests_directory",
         {| schema.Type_ := schema.StringAttribute;
            schema.MarkdownDescription :=
              "Filepath to the tests directory for the module.";
            schema.Required := true;
            schema.Computed := false |});
        ("filter",
         {| schema.Type_ := schema.StringAttribute;
            schema.MarkdownDescription :=
              "Filter to use to find tests responsible for validating the examples.";
            schema.Required := true;
            schema.Computed := false |});
        ("missing_tests",
         {| schema.Type_ := schema.ListAttribute true;
            schema.MarkdownDescription :=
              "List of example directories that are missing tests";
            schema.Required := false;
            schema.Computed := true |})] |}.

Section Framework.

(** [types.List], the conversion [types.ListValueFrom(ctx,
    types.StringType, _)] with its diagnostics, and the diagnostics of
    [resp.State.Set(ctx, &data)] belong to the plugin framework. *)
Variable ListT : Type.

(** [ExamplesValidationDataSourceModel]. *)
Record Model : Type := {
  Id : types.String;
  ExamplesDirectory : types.String;
  TestsDirectory : types.String;
  Filter : types.String;
  MissingTests : ListT
}.

Variable ListValueFrom : list string -> ListT * diag.Diagnostics.
Variable StateSet : Model -> diag.Diagnostics.

(** A value of the model, as an attribute. *)
Inductive Value : Type :=
| VString (s : types.String)
| VList (l : ListT).

(** The field carrying the [tfsdk] tag [name]. *)
Definition attribute (data : Model) (name : string) : option Value :=
  if String.eqb name "id" then Some (VString (Id data))
  else if String.eqb name "examples_directory"
  then Some (VString (ExamplesDirectory data))
  else if String.eqb name "tests_directory"
  then Some (VString (TestsDirectory data))
  else if String.eqb name "filter" then Some (VString (Filter data))
  else if String.eqb name "missing_tests" then Some (VList (MissingTests data))
  else None.

(** [req.Config.Get(ctx, &data)]: what it stores in [data] and the
    diagnostics it returns. *)
Record ReadRequest : Type := { ConfigGet : Model * diag.Diagnostics }.

(** [State] is the last value handed to [resp.State.Set], if any. *)
Record ReadResponse : Type := {
  State : option Model;
  Diagnostics : diag.Diagnostics
}.

Definition Read (req : ReadRequest) (resp : ReadResponse) : M ReadResponse :=
  let (data, got) := ConfigGet req in
  let resp :=
    {| State := State resp;
       Diagnostics := diag.Append (Diagnostics resp) got |} in
  if diag.HasError (Diagnostics resp) then ret resp
  else
    let data :=
      {| Id := types.StringValue "examples-validation";
         ExamplesDirectory := ExamplesDirectory data;
         TestsDirectory := TestsDirectory data;
         Filter := Filter data;
         MissingTests := MissingTests data |} in
    let examplesDirectory := types.ValueString (ExamplesDirectory data) in
    let testsDirectory := types.ValueString (TestsDirectory data) in
    let filter := types.ValueString (Filter data) in
    missingTests <- findMissingTests examplesDirectory testsDirectory filter ;;
    let (list, diags) := ListValueFrom missingTests in
    let data :=
      {| Id := Id data;
         ExamplesDirectory := ExamplesDirectory data;
         TestsDirectory := TestsDirectory data;
         Filter := Filter data;
         MissingTests := list |} in
    let resp :=
      {| State := State resp;
         Diagnostics := diag.Append (Diagnostics resp) diags |} in
    if diag.HasError (Diagnostics resp) then ret resp
    else
      tflog_Trace "read a data source" ;;;
      ret {| State := Some data;
             Diagnostics := diag.Append (Diagnostics resp) (StateSet data) |}.

End Framework.

End ExamplesValidationDataSource.

(* ================================================================= *)
(** ** The provider *)

Module CoverageProvider.

Record CoverageProvider : Type := { version : string }.

Record MetadataResponse : Type := { TypeName : string; Version : string }.

Definition Metadata (p : CoverageProvider) : MetadataResponse :=
  {| TypeName := "coverage"; Version := version p |}.






End CoverageProvider.

(* ================================================================= *)
(** ** Sample requests *)

Module SampleRead.
Import ExamplesValidationDataSource.

(** A framework whose lists are the lists of strings, whose conversion
    and whose [State.Set] report nothing. *)
Definition listValueFrom (l : list string) : list string * diag.Diagnostics :=
  (l, []).

Definition stateSet (_ : Model (list string)) : diag.Diagnostics := [].

Definition config (examples tests filter : string) : Model (list string) :=
  {| Id := types.StringNull;
     ExamplesDirectory := types.StringValue examples;
     TestsDirectory := types.StringValue tests;
     Filter := types.StringValue filter;
     MissingTests := [] |}.

Definition request (examples tests filter : string)
  : ReadRequest (list string) :=
  {| ConfigGet := (config examples tests filter, []) |}.

Definition unreadable : diag.Diagnostic :=
  {| diag.severity := diag.SeverityError;
     diag.summary := "Configuration Read Error";
     diag.detail := EmptyString |}.

Definition badRequest : ReadRequest (list string) :=
  {| ConfigGet := (config EmptyString EmptyString EmptyString, [unreadable]) |}.

Definition fresh : ReadResponse (list string) :=
  {| State := None; Diagnostics := [] |}.

End SampleRead.

(* ================================================================= *)
(** * Facts about byte strings *)

Module StrFacts.

Lemma app_nil_r (s : string) : s +++ EmptyString = s.
Proof. induction s as [|c s IH]; simpl; [reflexivity | now rewrite IH]. Qed.

Lemma app_assoc (a b c : string) : (a +++ b) +++ c = a +++ b +++ c.
Proof. induction a as [|x a IH]; simpl; [reflexivity | now rewrite IH]. Qed.

Lemma app_eq_nil (a b : string) :
  a +++ b = EmptyString -> a = EmptyString /\ b = EmptyString.
Proof. destruct a; simpl; [auto | discriminate]. Qed.

Lemma mem_app c (a b : string) :
  Str.mem c (a +++ b) = Str.mem c a || Str.mem c b.
Proof.
  induction a as [|x a IH]; simpl; [reflexivity|].
  now rewrite IH, orb_assoc.
Qed.

Lemma mem_false_all c s :
  Str.mem c s = false <-> Str.all (fun x => negb (Ascii.eqb x c)) s = true.
Proof.
  induction s as [|x s IH]; simpl; [tauto|].
  rewrite orb_false_iff, andb_true_iff, negb_true_iff. tauto.
Qed.

Lemma last_snoc (s : string) c :
  Str.last (s +++ String c EmptyString) = Some c.
Proof.
  induction s as [|x s IH]; [reflexivity|].
  change (Str.last (String x (s +++ String c EmptyString)) = Some c).
  destruct (s +++ String c EmptyString) eqn:E.
  - destruct s; discriminate.
  - exact IH.
Qed.

Lemma split_not_nil sep s : Str.split sep s <> [].
Proof.
  destruct s as [|c s]; simpl; [discriminate|].
  destruct (Ascii.eqb c sep); [discriminate|].
  destruct (Str.split sep s); discriminate.
Qed.

(** No piece of a split holds the separator. *)
Lemma split_pieces_no_sep sep s :
  Forall (fun p => Str.mem sep p = false) (Str.split sep s).
Proof.
  induction s as [|c s IH]; simpl.
  - constructor; [reflexivity | constructor].
  - destruct (Ascii.eqb c sep) eqn:E.
    + constructor; [reflexivity | exact IH].
    + destruct (Str.split sep s) as [|p ps]; inversion IH; subst.
      * constructor; [simpl; now rewrite E | constructor].
      * constructor; [simpl; now rewrite E | assumption].
Qed.

End StrFacts.

(* ================================================================= *)
(** * The matcher decides the language of a regular expression *)

Module RegexpFacts.
Import regexp.

Lemma eps_inv s : Matches Eps s -> s = EmptyString.
Proof. intros H; inversion H; reflexivity. Qed.

Lemma class_inv p s :
  Matches (Class p) s -> exists c, s = String c EmptyString /\ p c = true.
Proof. intros H; inversion H; subst; eauto. Qed.

Lemma cat_inv r1 r2 s :
  Matches (Cat r1 r2) s ->
  exists s1 s2, s = s1 +++ s2 /\ Matches r1 s1 /\ Matches r2 s2.
Proof. intros H; inversion H; subst; eauto. Qed.

Lemma alt_inv r1 r2 s : Matches (Alt r1 r2) s -> Matches r1 s \/ Matches r2 s.
Proof. intros H; inversion H; subst; auto. Qed.

Lemma nullable_spec r : nullable r = true <-> Matches r EmptyString.
Proof.
  induction r as [| |p|r1 IH1 r2 IH2|r1 IH1 r2 IH2|r IH]; simpl.
  - split; [discriminate | intros H; inversion H].
  - split; [constructor | reflexivity].
  - split; [discriminate | intros H; inversion H].
  - rewrite andb_true_iff, IH1, IH2. split.
    + intros [H1 H2]. exact (MCat H1 H2).
    + intros H. apply cat_inv in H as (s1 & s2 & E & H1 & H2).
      symmetry in E. apply StrFacts.app_eq_nil in E as [-> ->]. auto.
  - rewrite orb_true_iff, IH1, IH2. split.
    + intros [H|H]; [now apply MAltL | now apply MAltR].
    + apply alt_inv.
  - split; [constructor | reflexivity].
Qed.

(** A non-empty word of [r*] starts with a non-empty word of [r]. *)
Lemma star_cons_inv r c s :
  Matches (Star r) (String c s) ->
  exists s1 s2,
    s = s1 +++ s2 /\ Matches r (String c s1) /\ Matches (Star r) s2.
Proof.
  intros H. remember (Star r) as r' eqn:Er. remember (String c s) as w eqn:Ew.
  revert c s Ew.
  induction H as [| | | | | |r0 s1 s2 H1 _ H2 IH2]; try discriminate.
  injection Er as ->. intros c s Ew.
  destruct s1 as [|c1 s1]; simpl in Ew.
  - apply IH2; auto.
  - injection Ew as <- <-. exists s1, s2. auto.
Qed.

Lemma deriv_spec c r s : Matches (deriv c r) s <-> Matches r (String c s).
Proof.
  revert s.
  induction r as [| |p|r1 IH1 r2 IH2|r1 IH1 r2 IH2|r IH]; intros s; simpl.
  - split; intros H; inversion H.
  - split; intros H; inversion H.
  - destruct (p c) eqn:E; split; intros H.
    + apply eps_inv in H as ->. now constructor.
    + apply class_inv in H as (c' & [= <- ->] & _). constructor.
    + inversion H.
    + apply class_inv in H as (c' & [= <- ->] & H). congruence.
  - assert (Hcat : forall t, Matches (Cat (deriv c r1) r2) t ->
                             Matches (Cat r1 r2) (String c t)).
    { intros t H. apply cat_inv in H as (s1 & s2 & -> & H1 & H2).
      apply IH1 in H1. exact (MCat H1 H2). }
    assert (Hinv : Matches (Cat r1 r2) (String c s) ->
                   Matches (Cat (deriv c r1) r2) s \/
                   (Matches r1 EmptyString /\ Matches (deriv c r2) s)).
    { intros H. apply cat_inv in H as (s1 & s2 & E & H1 & H2).
      destruct s1 as [|c1 s1]; simpl in E.
      - right. subst s2. split; [assumption | now apply IH2].
      - injection E as -> ->. left. apply MCat; [now apply IH1 | assumption]. }
    destruct (nullable r1) eqn:N; split; intros H.
    + apply alt_inv in H as [H|H]; [now apply Hcat|].
      apply nullable_spec in N. apply IH2 in H.
      exact (MCat N H).
    + destruct (Hinv H) as [H'|[_ H']]; [now apply MAltL | now apply MAltR].
    + now apply Hcat.
    + destruct (Hinv H) as [H'|[H' _]]; [assumption|].
      apply nullable_spec in H'. congruence.
  - split; intros H.
    + apply alt_inv in H as [H|H]; [apply MAltL; now apply IH1 | apply MAltR; now apply IH2].
    + apply alt_inv in H as [H|H]; [apply MAltL; now apply IH1 | apply MAltR; now apply IH2].
  - split; intros H.
    + apply cat_inv in H as (s1 & s2 & -> & H1 & H2).
      apply IH in H1. exact (MStarCons H1 H2).
    + apply star_cons_inv in H as (s1 & s2 & -> & H1 & H2).
      apply MCat; [now apply IH | assumption].
Qed.

Theorem accepts_spec r s : accepts r s = true <-> Matches r s.
Proof.
  revert r. induction s as [|c s IH]; intros r; simpl.
  - apply nullable_spec.
  - rewrite IH. apply deriv_spec.
Qed.

Lemma lit_spec l s : Matches (Lit l) s <-> s = l.
Proof.
  revert s. induction l as [|c l IH]; intros s; simpl.
  - split; [apply eps_inv | intros ->; constructor].
  - split.
    + intros H. apply cat_inv in H as (s1 & s2 & -> & H1 & H2).
      apply class_inv in H1 as (c' & -> & E). apply Ascii.eqb_eq in E as <-.
      apply IH in H2 as ->. reflexivity.
    + intros ->. change (String c l) with (String c EmptyString +++ l).
      apply MCat; [constructor; apply Ascii.eqb_refl | now apply IH].
Qed.

Lemma star_class_spec p s :
  Matches (Star (Class p)) s <-> Str.all p s = true.
Proof.
  split.
  - intros H. remember (Star (Class p)) as r eqn:Er.
    induction H as [| | | | | |r0 s1 s2 H1 _ H2 IH2]; try discriminate.
    + reflexivity.
    + injection Er as ->. apply class_inv in H1 as (c & -> & Hc).
      simpl. rewrite Hc. now apply IH2.
  - induction s as [|c s IH]; simpl; intros H; [constructor|].
    apply andb_true_iff in H as [Hc Hs].
    change (String c s) with (String c EmptyString +++ s).
    apply MStarCons; [now constructor | auto].
Qed.

Lemma plus_class_spec p s :
  Matches (Plus (Class p)) s <-> s <> EmptyString /\ Str.all p s = true.
Proof.
  unfold Plus. split.
  - intros H. apply cat_inv in H as (s1 & s2 & -> & H1 & H2).
    apply class_inv in H1 as (c & -> & Hc). apply star_class_spec in H2.
    simpl. rewrite Hc, H2. split; [discriminate | reflexivity].
  - intros [Hne H]. destruct s as [|c s]; [congruence|]. simpl in H.
    apply andb_true_iff in H as [Hc Hs].
    change (String c s) with (String c EmptyString +++ s).
    apply MCat; [now constructor | now apply star_class_spec].
Qed.

(** The lines accepted by the pattern of [searchFile]. *)
Lemma sourceLine_spec line :
  MatchString sourceLine line = true <-> SourceLineShape line.
Proof.
  unfold MatchString. rewrite accepts_spec. unfold sourceLine, SourceLineShape.
  split.
  - intros H.
    apply cat_inv in H as (ws1 & t1 & -> & W1 & H).
    apply cat_inv in H as (l1 & t2 & -> & L1 & H).
    apply cat_inv in H as (ws2 & t3 & -> & W2 & H).
    apply cat_inv in H as (l2 & t4 & -> & L2 & H).
    apply cat_inv in H as (ws3 & t5 & -> & W3 & H).
    apply cat_inv in H as (l3 & t6 & -> & L3 & H).
    apply cat_inv in H as (x & t7 & -> & X & H).
    apply cat_inv in H as (l4 & t8 & -> & L4 & H).
    apply cat_inv in H as (y & l5 & -> & Y & L5).
    apply lit_spec in L1, L2, L3, L4, L5. subst.
    apply star_class_spec in W1, W2, W3.
    apply plus_class_spec in X as [X1 X2], Y as [Y1 Y2].
    exists ws1, ws2, ws3, x, y. repeat split; auto.
  - intros (ws1 & ws2 & ws3 & x & y & -> & W1 & W2 & W3 & X1 & X2 & Y1 & Y2).
    apply MCat; [now apply star_class_spec|].
    apply (@MCat _ _ "source"); [now apply lit_spec|].
    apply MCat; [now apply star_class_spec|].
    apply (@MCat _ _ "="); [now apply lit_spec|].
    apply MCat; [now apply star_class_spec|].
    apply (@MCat _ _ (String dquote EmptyString)); [now apply lit_spec|].
    apply MCat; [now apply plus_class_spec|].
    apply (@MCat _ _ "examples"); [now apply lit_spec|].
    apply MCat; [now apply plus_class_spec | now apply lit_spec].
Qed.

End RegexpFacts.

(* ================================================================= *)
(** * Facts about the library functions *)

Module QuotedFacts.
Import regexp.

Lemma oddPieces_cons p pieces :
  pieces <> [] -> oddPieces (p :: pieces) = closing EmptyString pieces.
Proof. destruct pieces as [|q [|r rest]]; intros H; [congruence | | ]; reflexivity. Qed.

Lemma findQuoted_pieces s :
  Str.mem "010" s = false ->
  findQuoted None s = oddPieces (Str.split dquote s)
  /\ forall acc, findQuoted (Some acc) s = closing acc (Str.split dquote s).
Proof.
  induction s as [|c s IH]; intros Hnl; [split; reflexivity|].
  simpl in Hnl. apply orb_false_iff in Hnl as [Hc Hs].
  destruct (IH Hs) as [IHn IHs]. simpl. rewrite Hc.
  pose proof (StrFacts.split_not_nil dquote s) as Hne.
  destruct (Ascii.eqb c dquote) eqn:Eq.
  - split.
    + rewrite IHs. symmetry. now apply oddPieces_cons.
    + intros acc. rewrite IHn.
      destruct (Str.split dquote s) as [|p ps]; [congruence|].
      simpl. now rewrite StrFacts.app_nil_r.
  - destruct (Str.split dquote s) as [|p ps]; [congruence|]. split.
    + rewrite IHn. destruct ps as [|q [|r rest]]; reflexivity.
    + intros acc. rewrite IHs. destruct ps as [|q ps]; [reflexivity|].
      simpl. now rewrite StrFacts.app_assoc.
Qed.

(** On a line without line feed, the matches of the second pattern are
    the double-quoted tokens of the line. *)
Lemma FindAll_quotedTokens line :
  Str.mem "010" line = false ->
  FindAllQuotedSubmatch line = quotedTokens line.
Proof. intros H. apply (findQuoted_pieces line H). Qed.

Lemma findQuoted_skip pre s :
  Str.mem dquote pre = false ->
  findQuoted None (pre +++ s) = findQuoted None s.
Proof.
  induction pre as [|c pre IH]; simpl; intros H; [reflexivity|].
  apply orb_false_iff in H as [Hc Hp]. rewrite Hc. auto.
Qed.

Lemma findQuoted_closes acc s :
  Str.mem dquote s = true -> Str.mem "010" s = false ->
  findQuoted (Some acc) s <> [].
Proof.
  revert acc. induction s as [|c s IH]; simpl; intros acc Hq Hnl; [discriminate|].
  apply orb_false_iff in Hnl as [Hc Hs]. rewrite Hc.
  destruct (Ascii.eqb c dquote); [discriminate|]. simpl in Hq. auto.
Qed.

Lemma space_not_quote ws :
  Str.all isSpace ws = true -> Str.mem dquote ws = false.
Proof.
  induction ws as [|c ws IH]; simpl; intros H; [reflexivity|].
  apply andb_true_iff in H as [Hc Hw]. rewrite (IH Hw), orb_false_r.
  destruct (Ascii.eqb c dquote) eqn:E; [|reflexivity].
  apply Ascii.eqb_eq in E. subst c. discriminate.
Qed.

Lemma dot_no_linefeed s :
  Str.all isDot s = true <-> Str.mem "010" s = false.
Proof. symmetry. apply StrFacts.mem_false_all. Qed.

(** A line of the accepted shape has a double-quoted token. *)
Lemma shape_has_match line :
  SourceLineShape line -> FindAllQuotedSubmatch line <> [].
Proof.
  intros (ws1 & ws2 & ws3 & x & y & -> & W1 & W2 & W3 & _ & X & _ & Y).
  unfold FindAllQuotedSubmatch.
  rewrite <- !StrFacts.app_assoc.
  rewrite findQuoted_skip.
  - simpl. apply findQuoted_closes.
    + rewrite !StrFacts.mem_app. simpl. now rewrite !orb_true_r.
    + apply dot_no_linefeed in X, Y.
      rewrite !StrFacts.mem_app, X, Y. reflexivity.
  - rewrite !StrFacts.mem_app.
    rewrite (space_not_quote _ W1), (space_not_quote _ W2), (space_not_quote _ W3).
    reflexivity.
Qed.

End QuotedFacts.

Module PathFacts.
Import filepath.

Lemma last_cons {A} (x : A) l d : l <> [] -> List.last (x :: l) d = List.last l d.
Proof. destruct l; [congruence | reflexivity]. Qed.

Lemma last_pieces {A} (p : A) ps d : List.last (p :: ps) d = List.last ps p.
Proof.
  revert p d. induction ps as [|q ps IH]; intros p d; [reflexivity|].
  change (List.last (p :: q :: ps) d) with (List.last (q :: ps) d).
  now rewrite (IH q d), (IH q p).
Qed.

(** The loop of [Base] finds the last piece between slashes. *)
Lemma lastElement_spec acc path :
  lastElement acc path =
  match Str.split Separator path with
  | p :: ps => List.last ps (acc +++ p)
  | [] => acc
  end.
Proof.
  revert acc. induction path as [|c path IH]; intros acc; simpl.
  - now rewrite StrFacts.app_nil_r.
  - destruct (Ascii.eqb c Separator) eqn:E; rewrite IH.
    + destruct (Str.split Separator path) as [|p ps] eqn:S.
      * now apply StrFacts.split_not_nil in S.
      * simpl (EmptyString +++ p). rewrite StrFacts.app_nil_r.
        symmetry. apply last_pieces.
    + destruct (Str.split Separator path) as [|p ps] eqn:S.
      * now apply StrFacts.split_not_nil in S.
      * now rewrite StrFacts.app_assoc.
Qed.

Lemma lastElement_lastSegment path :
  lastElement EmptyString path = lastSegment path.
Proof.
  rewrite lastElement_spec. unfold lastSegment.
  change (String "/" EmptyString) with (String Separator EmptyString).
  change "/"%char with Separator.
  destruct (Str.split Separator path) as [|p ps] eqn:S.
  - now apply StrFacts.split_not_nil in S.
  - simpl (EmptyString +++ p). symmetry. apply last_pieces.
Qed.

Lemma strip_slashes k : stripTrailingSlashes (Str.replicate k Separator) = EmptyString.
Proof. induction k as [|k IH]; simpl; [reflexivity | now rewrite IH]. Qed.

(** Trailing slashes, and only they, are removed. *)
Lemma stripTrailingSlashes_spec t k :
  Str.last t <> Some Separator ->
  stripTrailingSlashes (t +++ Str.replicate k Separator) = t.
Proof.
  induction t as [|c t IH]; intros H.
  - apply strip_slashes.
  - change (stripTrailingSlashes (String c (t +++ Str.replicate k Separator)) = String c t).
    simpl. destruct t as [|c' t].
    + simpl (EmptyString +++ _). rewrite strip_slashes.
      destruct (Ascii.eqb c Separator) eqn:E; [|reflexivity].
      apply Ascii.eqb_eq in E. subst c. now contradiction H.
    + rewrite IH by exact H. reflexivity.
Qed.

(** A path that neither is empty nor ends with a slash has a last
    segment that is not empty. *)
Lemma lastSegment_empty t :
  lastSegment t = EmptyString ->
  t = EmptyString \/ Str.last t = Some Separator.
Proof.
  unfold lastSegment. induction t as [|c t IH]; [auto|].
  simpl. pose proof (StrFacts.split_not_nil "/" t) as Hne.
  destruct (Ascii.eqb c "/") eqn:E.
  - apply Ascii.eqb_eq in E. subst c. rewrite last_cons by assumption.
    intros H. right. destruct (IH H) as [->|H']; [reflexivity|].
    destruct t; [discriminate | exact H'].
  - destruct (Str.split "/" t) as [|p ps] eqn:S; [congruence|].
    destruct ps as [|q ps]; [discriminate|].
    rewrite last_cons by discriminate.
    rewrite <- (last_cons p (l := q :: ps)) by discriminate.
    intros H. right. destruct (IH H) as [->|H']; [discriminate|].
    destruct t; [discriminate | exact H'].
Qed.

Lemma Base_spec t k :
  Str.last t <> Some Separator ->
  Base (t +++ Str.replicate k Separator) =
  if String.eqb t EmptyString
  then (if Nat.eqb k 0 then "." else String Separator EmptyString)
  else lastSegment t.
Proof.
  intros H. unfold Base. rewrite stripTrailingSlashes_spec by exact H.
  rewrite lastElement_lastSegment.
  destruct t as [|c t].
  - destruct k; reflexivity.
  - simpl. destruct (String.eqb (lastSegment (String c t)) EmptyString) eqn:E;
      [|reflexivity].
    apply String.eqb_eq in E. apply lastSegment_empty in E as [E|E];
      [discriminate | contradiction].
Qed.

End PathFacts.

Module StringsFacts.
Import strings.

Lemma HasPrefix_spec s p :
  HasPrefix s p = true <-> exists post, s = p +++ post.
Proof.
  revert s. induction p as [|c p IH]; intros s.
  - split; [exists s; reflexivity | destruct s; reflexivity].
  - destruct s as [|x s]; simpl.
    + split; [discriminate | intros [post H]; discriminate].
    + rewrite andb_true_iff, Ascii.eqb_eq, IH. split.
      * intros [-> [post ->]]. now exists post.
      * intros [post [= -> ->]]. split; [reflexivity | now exists post].
Qed.

Lemma Contains_cons c s sub :
  Contains (String c s) sub = HasPrefix (String c s) sub || Contains s sub.
Proof. reflexivity. Qed.

(** [strings.Contains] is the unanchored substring test. *)
Lemma Contains_spec s sub : Contains s sub = true <-> Substring sub s.
Proof.
  unfold Substring. induction s as [|c s IH].
  - change (Contains EmptyString sub) with (HasPrefix EmptyString sub || false).
    rewrite orb_false_r, HasPrefix_spec. split.
    + intros [post H]. exists EmptyString, post. exact H.
    + intros (pre & post & H). destruct pre; [now exists post | discriminate].
  - rewrite Contains_cons, orb_true_iff, HasPrefix_spec, IH. split.
    + intros [[post H]|(pre & post & ->)].
      * exists EmptyString, post. exact H.
      * now exists (String c pre), post.
    + intros (pre & post & H). destruct pre as [|x pre].
      * left. now exists post.
      * right. injection H as -> ->. now exists pre, post.
Qed.

Lemma Contains_empty s : Contains s EmptyString = true.
Proof. destruct s; reflexivity. Qed.

Lemma slices_Contains_spec l v : slices.Contains l v = true <-> In v l.
Proof.
  unfold slices.Contains. rewrite existsb_exists. split.
  - intros (x & Hx & E). apply String.eqb_eq in E. now subst.
  - intros H. exists v. split; [assumption | apply String.eqb_refl].
Qed.

End StringsFacts.

(* ================================================================= *)
(** * Running the program *)

Module RunFacts.

Lemma extend_nil w : extend w [] = w.
Proof. destruct w. unfold extend. simpl. now rewrite app_nil_r. Qed.

Lemma extend_extend w a b : extend (extend w a) b = extend w (a ++ b).
Proof. unfold extend. simpl. now rewrite app_assoc. Qed.

Lemma emit_extend e w : emit e w = extend w [e].
Proof. reflexivity. Qed.

Lemma fsys_extend w evs : fsys (extend w evs) = fsys w.
Proof. reflexivity. Qed.

(** The inner loop of [searchFile]. *)
Lemma inner_loop matches result w :
  forRange matches
    (fun result m =>
       let strippedText := filepath.Base m in
       tflog.Info strippedText ;;; ret (result ++ [strippedText]))
    result w
  = (Return (result ++ map filepath.Base matches),
     extend w (map EvLog (map filepath.Base matches))).
Proof.
  revert result w. induction matches as [|m ms IH]; intros result w; simpl.
  - unfold ret. now rewrite app_nil_r, extend_nil.
  - unfold bind at 1. unfold bind at 1. unfold tflog.Info at 1. unfold ret at 1.
    rewrite IH, emit_extend, extend_extend, <- app_assoc. reflexivity.
Qed.

(** The loop of [searchFile] over the scanned lines. *)
Lemma line_loop lines result w :
  forRange lines
    (fun result line =>
       if regexp.MatchString regexp.sourceLine line then
         forRange (regexp.FindAllQuotedSubmatch line)
           (fun result m =>
              let strippedText := filepath.Base m in
              tflog.Info strippedText ;;; ret (result ++ [strippedText]))
           result
       else ret result)
    result w
  = (Return (result ++ flat_map lineReferences lines),
     extend w (map EvLog (flat_map lineReferences lines))).
Proof.
  revert result w. induction lines as [|l ls IH]; intros result w; simpl.
  - unfold ret. now rewrite app_nil_r, extend_nil.
  - unfold bind at 1. unfold lineReferences at 1 3.
    destruct (regexp.MatchString regexp.sourceLine l).
    + rewrite inner_loop, IH, extend_extend, map_app, <- app_assoc. reflexivity.
    + unfold ret at 1. rewrite IH. reflexivity.
Qed.

(** [searchFile] panics when the file cannot be opened; otherwise it
    returns the references of the lines scanned, whatever ended the scan. *)
Lemma searchFile_run file pattern examplesDirectory w :
  searchFile file pattern examplesDirectory w =
  match files (fsys w) file with
  | None => (Panic (PathError "open" file), extend w [EvOpen file])
  | Some d =>
      (Return (fileReferences file d),
       extend w (EvOpen file :: map EvLog (fileReferences file d)
                 ++ [EvClose file]))
  end.
Proof.
  unfold searchFile, bind, os.Open. simpl.
  destruct (files (fsys w) file) as [d|]; [|reflexivity].
  unfold defer. cbv zeta. rewrite line_loop. simpl.
  unfold os.Close. simpl. rewrite !emit_extend, !extend_extend.
  reflexivity.
Qed.

(** The loop of [findMissingTests] over the listing of the tests
    directory. *)
Lemma tests_loop testsDirectory filter sourceFilter examplesDirectory
    entries tests w :
  forRange entries
    (fun tests file =>
       if negb (IsDir file) && strings.Contains (Name file) filter
       then
         let filepath := filepath.Join testsDirectory (Name file) in
         tflog.Info filepath ;;;
         found <- searchFile filepath sourceFilter examplesDirectory ;;
         ret (tests ++ found)
       else ret tests)
    tests w
  = (fst (scanAll (fsys w) (selectedPaths testsDirectory filter entries) tests),
     extend w
       (snd (scanAll (fsys w) (selectedPaths testsDirectory filter entries) tests))).
Proof.
  revert tests w. induction entries as [|f fs IH]; intros tests w.
  - simpl. unfold ret. now rewrite extend_nil.
  - unfold selectedPaths. cbn [forRange List.filter].
    change (negb (IsDir f) && strings.Contains (Name f) filter)
      with (selected filter f).
    unfold bind at 1.
    destruct (selected filter f); cbn [map scanAll].
    + fold (selectedPaths testsDirectory filter fs).
      unfold bind at 1. unfold tflog.Info at 1. unfold bind at 1.
      rewrite searchFile_run. rewrite emit_extend. simpl fsys.
      destruct (files (fsys w) (filepath.Join testsDirectory (Name f))) as [d|].
      * unfold ret at 1. rewrite extend_extend, IH. simpl fsys.
        destruct (scanAll (fsys w) (selectedPaths testsDirectory filter fs)
                    (tests ++ fileReferences _ d)) as [r evs].
        simpl. rewrite extend_extend. simpl. rewrite <- app_assoc. reflexivity.
      * simpl. rewrite extend_extend. reflexivity.
    + fold (selectedPaths testsDirectory filter fs).
      unfold ret at 1. rewrite IH. reflexivity.
Qed.

Lemma examples_loop files acc :
  fold_left
    (fun examples file =>
       if IsDir file then examples ++ [Name file] else examples)
    files acc
  = acc ++ exampleNames files.
Proof.
  unfold exampleNames. revert acc.
  induction files as [|f fs IH]; intros acc; simpl.
  - now rewrite app_nil_r.
  - rewrite IH. destruct (IsDir f); simpl; [now rewrite <- app_assoc | reflexivity].
Qed.

Lemma missing_loop tests examples acc :
  fold_left
    (fun missing e =>
       if negb (slices.Contains tests e) then missing ++ [e] else missing)
    examples acc
  = acc ++ missingOf examples tests.
Proof.
  unfold missingOf. revert acc.
  induction examples as [|e es IH]; intros acc; simpl.
  - now rewrite app_nil_r.
  - rewrite IH. destruct (negb (slices.Contains tests e)); simpl;
      [now rewrite <- app_assoc | reflexivity].
Qed.

(** [findMissingTests] computes [outcomeOf] of the file system and adds
    its events to the trace. *)
Theorem findMissingTests_run examplesDirectory testsDirectory filter w :
  findMissingTests examplesDirectory testsDirectory filter w =
  (fst (outcomeOf (fsys w) examplesDirectory testsDirectory filter),
   extend w (snd (outcomeOf (fsys w) examplesDirectory testsDirectory filter))).
Proof.
  unfold findMissingTests, outcomeOf. cbv zeta.
  unfold bind at 1. unfold os.ReadDir at 1.
  destruct (dirs (fsys w) examplesDirectory) as [files|]; [|reflexivity].
  unfold bind at 1. unfold os.ReadDir at 1.
  rewrite !emit_extend, !fsys_extend.
  destruct (dirs (fsys w) testsDirectory) as [testFiles|];
    [|unfold panic; rewrite extend_extend; reflexivity].
  unfold bind at 1. unfold tflog.Info at 1. unfold bind at 1.
  rewrite tests_loop. rewrite !emit_extend, !extend_extend, !fsys_extend.
  destruct (scanAll (fsys w) (selectedPaths testsDirectory filter testFiles) [])
    as [r evs].
  simpl fst. simpl snd.
  destruct r as [tests|e]; [|reflexivity].
  unfold ret. rewrite examples_loop, missing_loop. reflexivity.
Qed.

End RunFacts.

Module ScannerFacts.
Import bufio.

Lemma dropCR_no_linefeed s :
  Str.mem "010" s = false -> Str.mem "010" (dropCR s) = false.
Proof.
  induction s as [|c s IH]; [reflexivity|].
  intros H. simpl in H. apply orb_false_iff in H as [Hc Hs].
  destruct s as [|c' s].
  - simpl. destruct (Ascii.eqb c "013"); [reflexivity|]. simpl. now rewrite Hc.
  - change (dropCR (String c (String c' s)))
      with (String c (dropCR (String c' s))).
    simpl Str.mem. rewrite Hc. now apply IH.
Qed.

Lemma scanPieces_no_linefeed max readErr pieces :
  Forall (fun p => Str.mem "010" p = false) pieces ->
  Forall (fun l => Str.mem "010" l = false)
         (fst (scanPieces max readErr pieces)).
Proof.
  induction pieces as [|p ps IH]; intros H; [constructor|].
  inversion H as [|? ? Hp Hps]; subst. specialize (IH Hps).
  cbn [scanPieces]. destruct ps as [|q ps].
  - destruct (String.eqb p EmptyString); [constructor|].
    destruct (Nat.leb max (String.length p)); [constructor|].
    constructor; [now apply dropCR_no_linefeed | constructor].
  - destruct (Nat.leb max (String.length p)); [constructor|].
    destruct (scanPieces max readErr (q :: ps)) as [ts e].
    constructor; [now apply dropCR_no_linefeed | exact IH].
Qed.

(** No scanned line holds a line feed. *)
Lemma scannedLines_no_linefeed file d :
  Forall (fun l => Str.mem "010" l = false) (scannedLines file d).
Proof.
  unfold scannedLines, NewScanner. simpl os.fileData.
  pose proof (scanPieces_no_linefeed MaxScanTokenSize
                (if fault d then Some (ErrRead file) else None)
                (StrFacts.split_pieces_no_sep "010" (delivered d))) as H.
  simpl os.fileName.
  destruct (scanPieces MaxScanTokenSize _ (Str.split "010" (delivered d))).
  exact H.
Qed.

End ScannerFacts.

(* ================================================================= *)
(** * The library models on sample values *)

Module Checks.
Import Sample.

Example Base_samples :
  map filepath.Base
      ["../../examples/group/basic"; EmptyString; "a/b/"; "///"; "/a"; "abc"]
  = ["basic"; "."; "b"; "/"; "a"; "abc"].
Proof. reflexivity. Qed.

Example Clean_samples :
  map filepath.Clean
      ["tests/basic_test.cfg"; "./tests//x/../y"; "/../a"; "../../a/..";
       "a/.."; "/"; EmptyString]
  = ["tests/basic_test.cfg"; "tests/y"; "/a"; "../.."; "."; "/"; "."].
Proof. reflexivity. Qed.

Example Join_samples :
  filepath.Join "tests" "basic_test.cfg" = "tests/basic_test.cfg"
  /\ filepath.Join "./tests/" "a.cfg" = "tests/a.cfg"
  /\ filepath.Join EmptyString "a.cfg" = "a.cfg".
Proof. repeat split. Qed.

Example Contains_samples :
  strings.Contains "basic_test.cfg" "_test.cfg" = true
  /\ strings.Contains "basic_TEST.cfg" "_test.cfg" = false
  /\ strings.Contains "notes.txt" EmptyString = true.
Proof. repeat split. Qed.

(** Lines end at a line feed, one carriage return before it is dropped,
    and a last line need not be terminated. *)
Example scanner_samples :
  scannedLines "f" (whole ("a" +++ String "013" lf +++ lf +++ "b"))
  = ["a"; EmptyString; "b"]
  /\ scannedLines "f" (whole ("a" +++ lf)) = ["a"]
  /\ scannedLines "f" (whole EmptyString) = [].
Proof. repeat split. Qed.

(** A line of [64 * 1024 - 1] bytes is still a token. *)
Example scanner_longest_line :
  map (fun l => Nat.eqb (String.length l) (bufio.MaxScanTokenSize - 1))
      (scannedLines "f"
         (whole (Str.replicate (bufio.MaxScanTokenSize - 1) "x" +++ lf +++ "b")))
  = [true; false].
Proof. vm_compute. reflexivity. Qed.

Example pattern_samples :
  map (regexp.MatchString regexp.sourceLine)
      [basicLine; twoTokens; bareLine;
       "source = " +++ quote "examples/basic";
       "# " +++ basicLine;
       basicLine +++ " # note";
       "source=" +++ quote "../examples/basic"]
  = [true; true; false; false; false; false; true].
Proof. reflexivity. Qed.

Example quoted_samples :
  regexp.FindAllQuotedSubmatch twoTokens = ["./examples/a"; "./examples/b"]
  /\ regexp.FindAllQuotedSubmatch ("a " +++ quote "b" +++ String dquote "c")
     = ["b"].
Proof. repeat split. Qed.

End Checks.

(* ================================================================= *)
(** * The Reference Extractor *)

(** C1, as the specification words it, fails: the line
    [source = "examples"] has the worded form, with [examples] at the start
    and at the end of the quoted contents, and the pattern of [searchFile]
    rejects it, so no reference comes from it. *)
Lemma line_pattern_bare_examples_rejected :
  SpecLinePattern Sample.bareLine
  /\ regexp.MatchString regexp.sourceLine Sample.bareLine = false
  /\ lineReferences Sample.bareLine = [].
Proof.
  split; [|split; reflexivity].
  exists EmptyString, " ", " ", "examples". repeat split.
  exists EmptyString, EmptyString. reflexivity.
Qed.

Lemma lineReferences_nonempty line :
  lineReferences line <> [] <->
  regexp.MatchString regexp.sourceLine line = true.
Proof.
  unfold lineReferences.
  destruct (regexp.MatchString regexp.sourceLine line) eqn:E.
  - split; [reflexivity | intros _ H].
    apply map_eq_nil in H. revert H. apply QuotedFacts.shape_has_match.
    now apply RegexpFacts.sourceLine_spec.
  - split; [congruence | discriminate].
Qed.

Lemma shape_starts_with_space_or_s c rest :
  SourceLineShape (String c rest) ->
  regexp.isSpace c = true
  \/ (c = "s"%char /\ exists rest', rest = "ource" +++ rest').
Proof.
  intros (ws1 & ws2 & ws3 & x & y & E & W1 & _).
  destruct ws1 as [|c1 ws1]; simpl in E.
  - injection E as -> ->. right. split; [reflexivity|].
    eexists. reflexivity.
  - injection E as -> ->. simpl in W1.
    apply andb_true_iff in W1 as [W1 _]. now left.
Qed.

Lemma shape_ends_with_quote line :
  SourceLineShape line -> Str.last line = Some dquote.
Proof.
  intros (ws1 & ws2 & ws3 & x & y & -> & _).
  change (String dquote (x +++ "examples" +++ y +++ String dquote EmptyString))
    with (String dquote EmptyString +++ x +++ "examples" +++ y
          +++ String dquote EmptyString).
  rewrite <- !StrFacts.app_assoc. apply StrFacts.last_snoc.
Qed.

(** C1, amended.  A line is a matching line, and references are emitted
    from it, exactly when it is: optional whitespace, [source], optional
    whitespace, [=], optional whitespace, a double quote, at least one
    byte, [examples], at least one byte, and a double quote that ends the
    line; the bytes around [examples] are any but a line feed.  Hence a
    matching line put after a byte that is not whitespace produces no
    reference, and neither does a line that does not end with a double
    quote. *)
Theorem line_pattern_exact (line : string) :
  (regexp.MatchString regexp.sourceLine line = true <-> SourceLineShape line)
  /\ (lineReferences line <> [] <-> SourceLineShape line)
  /\ (forall c, regexp.isSpace c = false -> SourceLineShape line ->
                lineReferences (String c line) = [])
  /\ (Str.last line <> Some dquote -> lineReferences line = []).
Proof.
  assert (Hno : forall l, ~ SourceLineShape l -> lineReferences l = []).
  { intros l H. destruct (lineReferences l) eqn:E; [reflexivity|].
    exfalso. apply H. apply RegexpFacts.sourceLine_spec.
    apply lineReferences_nonempty. congruence. }
  split; [apply RegexpFacts.sourceLine_spec|].
  split; [rewrite lineReferences_nonempty; apply RegexpFacts.sourceLine_spec|].
  split.
  - intros c Hc Hline. apply Hno. intros H.
    apply shape_starts_with_space_or_s in H as [H|[-> [rest' ->]]];
      [congruence|].
    apply shape_starts_with_space_or_s in Hline as [H|[H _]]; discriminate.
  - intros H. apply Hno. intros Hs. now apply shape_ends_with_quote in Hs.
Qed.

Lemma line_pattern_exact_witness :
  (regexp.isSpace "#" = false
   /\ SourceLineShape Sample.basicLine
   /\ lineReferences (String "#" Sample.basicLine) = [])
  /\ (Str.last (Sample.basicLine +++ " # note") <> Some dquote
      /\ lineReferences (Sample.basicLine +++ " # note") = []).
Proof.
  assert (S : SourceLineShape Sample.basicLine).
  { exists "  ", " ", " ", "./", "/basic". repeat split; discriminate. }
  assert (L : Str.last (Sample.basicLine +++ " # note") <> Some dquote)
    by discriminate.
  split.
  - split; [reflexivity|]. split; [exact S|].
    exact (proj1 (proj2 (proj2 (line_pattern_exact Sample.basicLine)))
                 "#"%char eq_refl S).
  - split; [exact L|].
    exact (proj2 (proj2 (proj2
             (line_pattern_exact (Sample.basicLine +++ " # note")))) L).
Defined.

(** C5, as the specification words it, fails: from the matching line
    [Sample.slashLine], whose quoted substrings are the empty string and
    [./examples/a/], the references [.] and [a] are emitted,
    while the last of the pieces between slashes of each quoted substring
    is empty. *)
Lemma final_segment_empty_and_trailing_slash :
  regexp.MatchString regexp.sourceLine Sample.slashLine = true
  /\ regexp.FindAllQuotedSubmatch Sample.slashLine
     = [EmptyString; "./examples/a/"]
  /\ lineReferences Sample.slashLine = ["."; "a"]
  /\ map lastSegment (regexp.FindAllQuotedSubmatch Sample.slashLine)
     = [EmptyString; EmptyString].
Proof. repeat split. Qed.

(** C5, amended.  The reference emitted for a quoted substring of a
    matching line is its [filepath.Base]: the trailing slashes are dropped
    and the last of the pieces between slashes of what is left is emitted;
    an empty substring gives [.] and one made of slashes only gives [/]. *)
Theorem reference_is_base
    (line : string) (before after : list string) (t : string) (k : nat) :
  regexp.MatchString regexp.sourceLine line = true ->
  regexp.FindAllQuotedSubmatch line
  = before ++ (t +++ Str.replicate k "/") :: after ->
  Str.last t <> Some "/"%char ->
  lineReferences line
  = map filepath.Base before
    ++ (if String.eqb t EmptyString
        then (if Nat.eqb k 0 then "." else "/")
        else lastSegment t)
    :: map filepath.Base after.
Proof.
  intros Hm Hf Ht. unfold lineReferences. rewrite Hm, Hf, map_app.
  simpl. now rewrite PathFacts.Base_spec.
Qed.

Lemma reference_is_base_witness :
  regexp.MatchString regexp.sourceLine
    ("source = " +++ Sample.quote "../../examples/group/basic") = true
  /\ regexp.FindAllQuotedSubmatch
       ("source = " +++ Sample.quote "../../examples/group/basic")
     = [] ++ ("../../examples/group/basic" +++ Str.replicate 0 "/") :: []
  /\ Str.last "../../examples/group/basic" <> Some "/"%char
  /\ lineReferences ("source = " +++ Sample.quote "../../examples/group/basic")
     = ["basic"].
Proof.
  assert (H : Str.last "../../examples/group/basic" <> Some "/"%char)
    by discriminate.
  split; [reflexivity|]. split; [reflexivity|]. split; [exact H|].
  exact (@reference_is_base
           ("source = " +++ Sample.quote "../../examples/group/basic")
           [] [] "../../examples/group/basic" 0 eq_refl eq_refl H).
Defined.

(** C6.  On every matching line all the double-quoted tokens are
    extracted and one reference is emitted for each: [searchFile] returns,
    line after line, the [filepath.Base] of every token between a double
    quote of odd rank and the next double quote. *)
Theorem all_quoted_tokens_extracted
    (w : World) (file pattern examplesDirectory : string) (d : FileData) :
  files (fsys w) file = Some d ->
  fst (searchFile file pattern examplesDirectory w)
  = Return
      (flat_map
         (fun line =>
            if regexp.MatchString regexp.sourceLine line
            then map filepath.Base (quotedTokens line)
            else [])
         (scannedLines file d)).
Proof.
  intros H. rewrite RunFacts.searchFile_run, H. simpl. f_equal.
  unfold fileReferences.
  pose proof (ScannerFacts.scannedLines_no_linefeed file d) as Hnl.
  induction Hnl as [|l ls Hl _ IH]; [reflexivity|].
  simpl. rewrite IH. f_equal. unfold lineReferences.
  now rewrite QuotedFacts.FindAll_quotedTokens.
Qed.

Lemma all_quoted_tokens_extracted_witness :
  files (Sample.tree [] [] [("t", Sample.whole Sample.twoTokens)]) "t"
  = Some (Sample.whole Sample.twoTokens)
  /\ fst (searchFile "t" EmptyString EmptyString
            (Sample.start
               (Sample.tree [] [] [("t", Sample.whole Sample.twoTokens)])))
     = Return ["a"; "b"].
Proof.
  split; [reflexivity|].
  exact (@all_quoted_tokens_extracted
           (Sample.start (Sample.tree [] [] [("t", Sample.whole Sample.twoTokens)]))
           "t" EmptyString EmptyString _ eq_refl).
Defined.

(* ================================================================= *)
(** * The pipeline *)

Module PipelineFacts.

Lemma opens_app a b : opens (a ++ b) = opens a ++ opens b.
Proof.
  induction a as [|e a IH]; [reflexivity|].
  destruct e; simpl; rewrite IH; reflexivity.
Qed.

Lemma opens_logs l : opens (map EvLog l) = [].
Proof. induction l; simpl; auto. Qed.

(** When every file opens, all the references are gathered. *)
Lemma scanAll_readable fs paths contents tests :
  Readable fs paths contents ->
  fst (scanAll fs paths tests) = Return (tests ++ gathered paths contents).
Proof.
  intros H. revert tests. induction H as [|p d ps ds Hp _ IH]; intros tests.
  - simpl. now rewrite app_nil_r.
  - cbn [scanAll]. rewrite Hp. specialize (IH (tests ++ fileReferences p d)).
    destruct (scanAll fs ps (tests ++ fileReferences p d)) as [r evs].
    simpl in *. rewrite IH. unfold gathered. simpl.
    now rewrite <- app_assoc.
Qed.

(** A scan that returns has opened every file. *)
Lemma scanAll_returns fs paths tests refs :
  fst (scanAll fs paths tests) = Return refs ->
  exists contents,
    Readable fs paths contents /\ refs = tests ++ gathered paths contents.
Proof.
  revert tests. induction paths as [|p ps IH]; intros tests; cbn [scanAll].
  - intros [= <-]. exists []. split; [constructor | now rewrite app_nil_r].
  - destruct (files fs p) as [d|] eqn:Hp; [|discriminate].
    specialize (IH (tests ++ fileReferences p d)).
    destruct (scanAll fs ps (tests ++ fileReferences p d)) as [r evs].
    simpl. intros ->. destruct (IH eq_refl) as (ds & Hds & ->).
    exists (d :: ds). split; [now constructor|].
    unfold gathered. simpl. now rewrite <- app_assoc.
Qed.

(** The files opened by a scan are the first of [paths], and all of them
    when the scan returns. *)
Lemma scanAll_opens fs paths tests :
  exists later,
    paths = opens (snd (scanAll fs paths tests)) ++ later
    /\ (forall refs, fst (scanAll fs paths tests) = Return refs -> later = []).
Proof.
  revert tests. induction paths as [|p ps IH]; intros tests; cbn [scanAll].
  - exists []. auto.
  - destruct (files fs p) as [d|].
    + destruct (IH (tests ++ fileReferences p d)) as (later & E & Hr).
      destruct (scanAll fs ps (tests ++ fileReferences p d)) as [r evs].
      simpl in *. exists later. split; [|exact Hr].
      rewrite opens_app, opens_logs. simpl. congruence.
    + exists ps. simpl. split; [reflexivity | discriminate].
Qed.

(** A scan depends on the files at [paths] only. *)
Lemma scanAll_ext fs fs' paths tests :
  (forall p, In p paths -> files fs' p = files fs p) ->
  scanAll fs' paths tests = scanAll fs paths tests.
Proof.
  revert tests. induction paths as [|p ps IH]; intros tests H; [reflexivity|].
  cbn [scanAll]. rewrite (H p) by now left.
  destruct (files fs p) as [d|]; [|reflexivity].
  rewrite IH; [reflexivity|]. intros q Hq. apply H. now right.
Qed.

Lemma missingOf_spec examples refs x :
  In x (missingOf examples refs) <-> In x examples /\ ~ In x refs.
Proof.
  unfold missingOf. rewrite filter_In, negb_true_iff.
  rewrite <- (StringsFacts.slices_Contains_spec refs x).
  destruct (slices.Contains refs x); intuition congruence.
Qed.

Lemma selected_spec filter entry :
  selected filter entry = true <->
  IsDir entry = false /\ Substring filter (Name entry).
Proof.
  unfold selected.
  now rewrite andb_true_iff, negb_true_iff, StringsFacts.Contains_spec.
Qed.

Lemma selected_empty_filter entry : selected EmptyString entry = negb (IsDir entry).
Proof.
  unfold selected. now rewrite StringsFacts.Contains_empty, andb_true_r.
Qed.

End PipelineFacts.

Lemma run_opens (w : World) (e t filter : string)
    (entries testEntries : list DirEntry) :
  dirs (fsys w) e = Some entries ->
  dirs (fsys w) t = Some testEntries ->
  opens (trace (snd (findMissingTests e t filter w)))
  = opens (trace w)
    ++ opens (snd (scanAll (fsys w) (selectedPaths t filter testEntries) [])).
Proof.
  intros He Ht. rewrite RunFacts.findMissingTests_run. unfold outcomeOf.
  rewrite He, Ht.
  destruct (scanAll (fsys w) (selectedPaths t filter testEntries) []) as [r evs].
  simpl. now rewrite PipelineFacts.opens_app.
Qed.

Lemma run_result (w : World) (e t filter : string)
    (entries testEntries : list DirEntry) :
  dirs (fsys w) e = Some entries ->
  dirs (fsys w) t = Some testEntries ->
  fst (findMissingTests e t filter w)
  = match fst (scanAll (fsys w) (selectedPaths t filter testEntries) []) with
    | Return tests => Return (missingOf (exampleNames entries) tests)
    | Panic err => Panic err
    end.
Proof.
  intros He Ht. rewrite RunFacts.findMissingTests_run. unfold outcomeOf.
  rewrite He, Ht.
  destruct (scanAll (fsys w) (selectedPaths t filter testEntries) []) as [r evs].
  reflexivity.
Qed.

(** C3.  The operation returns a report exactly when both directories
    can be listed and every selected file can be opened, and the report
    is then the sequence of the enumerated examples that are not among the
    references gathered from these files, in the order of the enumeration;
    so every name reported is an enumerated example and none is a
    reference found. *)
Theorem missing_is_ordered_difference
    (w : World) (examplesDirectory testsDirectory filter : string)
    (missing : list string) :
  (fst (findMissingTests examplesDirectory testsDirectory filter w)
   = Return missing
   <->
   exists entries testEntries contents,
     dirs (fsys w) examplesDirectory = Some entries
     /\ dirs (fsys w) testsDirectory = Some testEntries
     /\ Readable (fsys w)
          (selectedPaths testsDirectory filter testEntries) contents
     /\ missing
        = List.filter
            (fun e =>
               negb (slices.Contains
                       (gathered (selectedPaths testsDirectory filter testEntries)
                                 contents) e))
            (exampleNames entries))
  /\ (forall examples refs x,
        In x (List.filter (fun e => negb (slices.Contains refs e)) examples)
        <-> In x examples /\ ~ In x refs).
Proof.
  split; [|intros examples refs x; apply PipelineFacts.missingOf_spec].
  split.
  - rewrite RunFacts.findMissingTests_run. unfold outcomeOf. simpl fst.
    destruct (dirs (fsys w) examplesDirectory) as [entries|]; [|discriminate].
    destruct (dirs (fsys w) testsDirectory) as [testEntries|]; [|discriminate].
    destruct (scanAll (fsys w) (selectedPaths testsDirectory filter testEntries) [])
      as [r evs] eqn:S.
    simpl. destruct r as [tests|e]; [|discriminate]. intros [= <-].
    destruct (@PipelineFacts.scanAll_returns (fsys w)
                (selectedPaths testsDirectory filter testEntries) [] tests)
      as (contents & Hc & ->); [now rewrite S|].
    exists entries, testEntries, contents.
    split; [reflexivity|]. split; [reflexivity|]. split; [exact Hc|].
    reflexivity.
  - intros (entries & testEntries & contents & He & Ht & Hc & ->).
    rewrite (@run_result w _ _ filter _ _ He Ht).
    now rewrite (@PipelineFacts.scanAll_readable _ _ _ [] Hc).
Qed.

Lemma missing_is_ordered_difference_witness :
  fst (findMissingTests "examples" "tests" "_test.cfg"
         (Sample.start Sample.endToEnd))
  = Return ["advanced"]
  /\ exists entries, dirs Sample.endToEnd "examples" = Some entries
                     /\ In "advanced" (exampleNames entries).
Proof.
  split; [reflexivity|].
  destruct (proj1 (proj1 (missing_is_ordered_difference
                            (Sample.start Sample.endToEnd)
                            "examples" "tests" "_test.cfg" ["advanced"]))
                  eq_refl)
    as (entries & testEntries & contents & He & _ & _ & Hm).
  exists entries. split; [exact He|].
  apply (proj2 (missing_is_ordered_difference
                  (Sample.start Sample.endToEnd)
                  "examples" "tests" "_test.cfg" ["advanced"])
               (exampleNames entries)
               (gathered (selectedPaths "tests" "_test.cfg" testEntries) contents)
               "advanced").
  rewrite <- Hm. now left.
Defined.

(** C7.  The files selected are the entries of the tests directory that
    are not directories and whose name holds the filter as a substring.
    The files opened are selected ones, in listing order, and all of them
    when the operation returns; the result does not depend on any other
    file. *)
Theorem only_filtered_files_scanned
    (w : World) (examplesDirectory testsDirectory filter : string)
    (entries testEntries : list DirEntry) :
  dirs (fsys w) examplesDirectory = Some entries ->
  dirs (fsys w) testsDirectory = Some testEntries ->
  let run := findMissingTests examplesDirectory testsDirectory filter in
  let chosen := selectedPaths testsDirectory filter testEntries in
  (forall entry,
     selected filter entry = true <->
     IsDir entry = false /\ Substring filter (Name entry))
  /\ (exists opened later,
        opens (trace (snd (run w))) = opens (trace w) ++ opened
        /\ chosen = opened ++ later
        /\ forall missing, fst (run w) = Return missing -> later = [])
  /\ (forall w',
        dirs (fsys w') examplesDirectory = Some entries ->
        dirs (fsys w') testsDirectory = Some testEntries ->
        (forall p, In p chosen -> files (fsys w') p = files (fsys w) p) ->
        fst (run w') = fst (run w)).
Proof.
  intros He Ht run chosen. split; [apply PipelineFacts.selected_spec|]. split.
  - destruct (PipelineFacts.scanAll_opens (fsys w) chosen [])
      as (later & E & Hr).
    exists (opens (snd (scanAll (fsys w) chosen []))), later.
    split; [now apply run_opens with (entries := entries)|].
    split; [exact E|].
    intros missing Hm. unfold run in Hm.
    rewrite (@run_result w _ _ filter _ _ He Ht) in Hm. fold chosen in Hm.
    destruct (fst (scanAll (fsys w) chosen [])) as [refs|err] eqn:S;
      [|discriminate].
    now apply (Hr refs).
  - intros w' He' Ht' Hf. unfold run.
    rewrite (@run_result w _ _ filter _ _ He Ht), (@run_result w' _ _ filter _ _ He' Ht').
    fold chosen. now rewrite (@PipelineFacts.scanAll_ext (fsys w) (fsys w') chosen [] Hf).
Qed.

Lemma only_filtered_files_scanned_witness :
  dirs Sample.unfiltered "examples"
  = Some [Sample.dir "advanced"; Sample.dir "basic"]
  /\ dirs Sample.unfiltered "tests" = Some [Sample.file "notes.txt"]
  /\ opens (trace (snd (findMissingTests "examples" "tests" "_test.cfg"
                          (Sample.start Sample.unfiltered))))
     = []
  /\ fst (findMissingTests "examples" "tests" "_test.cfg"
            (Sample.start Sample.unfiltered))
     = Return ["advanced"; "basic"].
Proof.
  split; [reflexivity|]. split; [reflexivity|].
  destruct (@only_filtered_files_scanned
              (Sample.start Sample.unfiltered) "examples" "tests" "_test.cfg"
              _ _ eq_refl eq_refl)
    as (_ & (opened & later & Ho & Hc & _) & _).
  split; [|reflexivity].
  rewrite Ho. destruct opened; [reflexivity | discriminate Hc].
Defined.

(** C10.  With the empty filter every entry of the tests directory that
    is not a directory is selected and opened, and the report is computed
    over the references of all these files. *)
Theorem empty_filter_selects_every_file
    (w : World) (examplesDirectory testsDirectory : string)
    (entries testEntries : list DirEntry) (contents : list FileData) :
  dirs (fsys w) examplesDirectory = Some entries ->
  dirs (fsys w) testsDirectory = Some testEntries ->
  Readable (fsys w) (plainFilePaths testsDirectory testEntries) contents ->
  let every := plainFilePaths testsDirectory testEntries in
  let run := findMissingTests examplesDirectory testsDirectory EmptyString w in
  selectedPaths testsDirectory EmptyString testEntries = every
  /\ opens (trace (snd run)) = opens (trace w) ++ every
  /\ fst run
     = Return (missingOf (exampleNames entries) (gathered every contents)).
Proof.
  intros He Ht Hr every run. subst every run.
  assert (E : selectedPaths testsDirectory EmptyString testEntries
              = plainFilePaths testsDirectory testEntries).
  { unfold selectedPaths, plainFilePaths. f_equal. apply filter_ext.
    apply PipelineFacts.selected_empty_filter. }
  split; [exact E|]. split.
  - rewrite (@run_opens w _ _ EmptyString _ _ He Ht), E. f_equal.
    destruct (PipelineFacts.scanAll_opens (fsys w)
                (plainFilePaths testsDirectory testEntries) [])
      as (later & El & Hl).
    rewrite (Hl _ (@PipelineFacts.scanAll_readable _ _ _ [] Hr)), app_nil_r in El.
    now symmetry.
  - rewrite (@run_result w _ _ EmptyString _ _ He Ht), E.
    now rewrite (@PipelineFacts.scanAll_readable _ _ _ [] Hr).
Qed.

Lemma empty_filter_selects_every_file_witness :
  dirs Sample.unfiltered "examples"
  = Some [Sample.dir "advanced"; Sample.dir "basic"]
  /\ dirs Sample.unfiltered "tests" = Some [Sample.file "notes.txt"]
  /\ opens (trace (snd (findMissingTests "examples" "tests" EmptyString
                          (Sample.start Sample.unfiltered))))
     = ["tests/notes.txt"]
  /\ fst (findMissingTests "examples" "tests" EmptyString
            (Sample.start Sample.unfiltered))
     = Return ["basic"].
Proof.
  split; [reflexivity|]. split; [reflexivity|].
  assert (R : Readable Sample.unfiltered ["tests/notes.txt"]
                [Sample.whole (("source = " +++ Sample.quote "./examples/advanced")
                               +++ Sample.lf)])
    by (constructor; [reflexivity | constructor]).
  destruct (@empty_filter_selects_every_file
              (Sample.start Sample.unfiltered) "examples" "tests" _ _ _
              eq_refl eq_refl R)
    as (_ & Ho & Hr).
  split; [exact Ho | exact Hr].
Defined.

(** C4.  End to end: the examples directory lists exactly the directories
    [basic] and [advanced], the tests directory lists the file
    [basic_test.cfg], whose scanned lines hold
    [  source = "./examples/basic"] and give no reference [advanced], and
    the filter is [_test.cfg]: the operation returns [["advanced"]]. *)
Theorem end_to_end_basic_advanced
    (w : World) (examplesDirectory testsDirectory : string)
    (entries : list DirEntry) (d : FileData) :
  dirs (fsys w) examplesDirectory = Some entries ->
  Permutation ["basic"; "advanced"] (exampleNames entries) ->
  dirs (fsys w) testsDirectory = Some [Sample.file "basic_test.cfg"] ->
  files (fsys w) (filepath.Join testsDirectory "basic_test.cfg") = Some d ->
  In Sample.basicLine
     (scannedLines (filepath.Join testsDirectory "basic_test.cfg") d) ->
  ~ In "advanced"
       (fileReferences (filepath.Join testsDirectory "basic_test.cfg") d) ->
  fst (findMissingTests examplesDirectory testsDirectory "_test.cfg" w)
  = Return ["advanced"].
Proof.
  intros He Hp Ht Hf Hline Hadv.
  set (path := filepath.Join testsDirectory "basic_test.cfg") in *.
  rewrite (@run_result w _ _ "_test.cfg" _ _ He Ht).
  change (selectedPaths testsDirectory "_test.cfg" [Sample.file "basic_test.cfg"])
    with [path].
  cbn [scanAll]. rewrite Hf. cbn [fst app].
  assert (Hb : slices.Contains (fileReferences path d) "basic" = true).
  { apply StringsFacts.slices_Contains_spec. unfold fileReferences.
    apply in_flat_map. exists Sample.basicLine. split; [exact Hline|].
    now left. }
  assert (Ha : slices.Contains (fileReferences path d) "advanced" = false).
  { destruct (slices.Contains (fileReferences path d) "advanced") eqn:E;
      [|reflexivity].
    now apply StringsFacts.slices_Contains_spec in E. }
  apply Permutation_length_2_inv in Hp as [->| ->];
    unfold missingOf; cbn [List.filter]; rewrite Ha, Hb; reflexivity.
Qed.

Lemma end_to_end_basic_advanced_witness :
  fst (findMissingTests "examples" "tests" "_test.cfg"
         (Sample.start Sample.endToEnd))
  = Return ["advanced"].
Proof.
  apply (@end_to_end_basic_advanced
           (Sample.start Sample.endToEnd) "examples" "tests"
           [Sample.dir "advanced"; Sample.dir "basic"]
           (Sample.whole (Sample.basicLine +++ Sample.lf))).
  - reflexivity.
  - apply perm_swap.
  - reflexivity.
  - reflexivity.
  - left. reflexivity.
  - intros [H|[]]. discriminate H.
Defined.

(** C8.  When the examples directory or the tests directory cannot be
    listed the operation panics with the error of [os.ReadDir]: no report
    is returned and no file has been opened. *)
Theorem unlistable_root_aborts
    (w : World) (examplesDirectory testsDirectory filter : string) :
  dirs (fsys w) examplesDirectory = None
  \/ dirs (fsys w) testsDirectory = None ->
  let run := findMissingTests examplesDirectory testsDirectory filter w in
  fst run
  = Panic (PathError "open"
             match dirs (fsys w) examplesDirectory with
             | None => examplesDirectory
             | Some _ => testsDirectory
             end)
  /\ (forall missing, fst run <> Return missing)
  /\ opens (trace (snd run)) = opens (trace w).
Proof.
  intros H run. unfold run. rewrite RunFacts.findMissingTests_run.
  unfold outcomeOf.
  destruct (dirs (fsys w) examplesDirectory) as [entries|].
  - destruct H as [H|H]; [discriminate|]. rewrite H. simpl.
    rewrite PipelineFacts.opens_app, app_nil_r.
    repeat split; discriminate.
  - simpl. rewrite PipelineFacts.opens_app, app_nil_r.
    repeat split; discriminate.
Qed.

Lemma unlistable_root_aborts_witness :
  (dirs Sample.endToEnd "nowhere" = None
   /\ fst (findMissingTests "nowhere" "tests" "_test.cfg"
             (Sample.start Sample.endToEnd))
      = Panic (PathError "open" "nowhere"))
  /\ (dirs Sample.endToEnd "nowhere" = None
      /\ fst (findMissingTests "examples" "nowhere" "_test.cfg"
                (Sample.start Sample.endToEnd))
         = Panic (PathError "open" "nowhere")).
Proof.
  split; (split; [reflexivity|]).
  - exact (proj1 (@unlistable_root_aborts (Sample.start Sample.endToEnd)
                    "nowhere" "tests" "_test.cfg" (or_introl eq_refl))).
  - exact (proj1 (@unlistable_root_aborts (Sample.start Sample.endToEnd)
                    "examples" "nowhere" "_test.cfg" (or_intror eq_refl))).
Defined.

(** C9.  The operation is deterministic and leaves the file system as it
    found it: a second run, made in the world the first one left, returns
    what the first returned, the file system is the same after each, and
    the result does not depend on what was done before the run. *)
Theorem rerun_is_identical
    (w : World) (examplesDirectory testsDirectory filter : string) :
  let first := findMissingTests examplesDirectory testsDirectory filter w in
  let second :=
    findMissingTests examplesDirectory testsDirectory filter (snd first) in
  fst second = fst first
  /\ fsys (snd first) = fsys w
  /\ fsys (snd second) = fsys w
  /\ forall tr,
       fst (findMissingTests examplesDirectory testsDirectory filter
              {| fsys := fsys w; trace := tr |})
       = fst first.
Proof.
  cbv zeta. rewrite !RunFacts.findMissingTests_run. simpl.
  repeat split.
  intros tr. now rewrite RunFacts.findMissingTests_run.
Qed.

(** Once the file is opened [searchFile] returns the references of the
    lines scanned, whatever ended the scan: [scanner.Err()] is never read. *)
Lemma searchFile_returns_after_open
    (w : World) (file pattern examplesDirectory : string) (d : FileData) :
  files (fsys w) file = Some d ->
  fst (searchFile file pattern examplesDirectory w)
  = Return (fileReferences file d).
Proof. intros H. now rewrite RunFacts.searchFile_run, H. Qed.

(** C2 does not hold of the code.  With a line of [64 * 1024] bytes
    between the references to [a] and to [b] the scanner stops with
    [ErrTooLong], and the operation returns a report in which [b] is
    missing; with a read that fails after the first line the report is
    returned all the same. *)
Theorem scan_error_is_dropped :
  bufio.Err (bufio.NewScanner
               {| os.fileName := "tests/main_test.cfg";
                  os.fileData := Sample.longLine |})
  = Some ErrTooLong
  /\ fst (findMissingTests "examples" "tests" "_test.cfg"
            (Sample.start Sample.withLongLine))
     = Return ["b"]
  /\ bufio.Err (bufio.NewScanner
                  {| os.fileName := "tests/main_test.cfg";
                     os.fileData := Sample.faulty |})
     = Some (ErrRead "tests/main_test.cfg")
  /\ fst (findMissingTests "examples" "tests" "_test.cfg"
            (Sample.start Sample.withFault))
     = Return ["b"].
Proof. repeat split; vm_compute; reflexivity. Qed.

(* ================================================================= *)
(** * Further properties of the pipeline *)

Module PipelineMore.

Lemma readable_in fs paths contents p :
  Readable fs paths contents -> In p paths ->
  exists d, files fs p = Some d /\ In (p, d) (combine paths contents).
Proof.
  intros H. induction H as [|q d ps ds Hq _ IH]; intros Hin; [contradiction|].
  destruct Hin as [->|Hin].
  - exists d. split; [exact Hq | now left].
  - destruct (IH Hin) as (d' & Hd & Hc). exists d'. split; [exact Hd | now right].
Qed.

Lemma readable_combine fs paths contents p d :
  Readable fs paths contents -> In (p, d) (combine paths contents) ->
  files fs p = Some d /\ In p paths.
Proof.
  intros H. induction H as [|q d' ps ds Hq _ IH]; intros Hin; [contradiction|].
  destruct Hin as [[= -> ->]|Hin].
  - split; [exact Hq | now left].
  - destruct (IH Hin) as [Hd Hp]. split; [exact Hd | now right].
Qed.

(** The references gathered are those of the files at the paths. *)
Lemma gathered_in fs paths contents x :
  Readable fs paths contents ->
  (In x (gathered paths contents) <->
   exists p d, In p paths /\ files fs p = Some d /\ In x (fileReferences p d)).
Proof.
  intros H. unfold gathered. rewrite in_flat_map. split.
  - intros ([p d] & Hc & Hx). destruct (@readable_combine _ _ _ _ _ H Hc) as [Hd Hp].
    exists p, d. auto.
  - intros (p & d & Hp & Hd & Hx).
    destruct (@readable_in _ _ _ _ H Hp) as (d' & Hd' & Hc).
    assert (d' = d) by congruence. subst d'.
    exists (p, d). auto.
Qed.

Lemma readable_exists fs paths :
  (forall p, In p paths -> files fs p <> None) ->
  exists contents, Readable fs paths contents.
Proof.
  induction paths as [|p ps IH]; intros H.
  - exists []. constructor.
  - destruct IH as [ds Hds]; [intros q Hq; apply H; now right|].
    destruct (files fs p) as [d|] eqn:Hp.
    + exists (d :: ds). now constructor.
    + exfalso. apply (H p); [now left | exact Hp].
Qed.

Lemma readable_ext fs fs' paths contents :
  (forall p, In p paths -> files fs' p = files fs p) ->
  Readable fs paths contents -> Readable fs' paths contents.
Proof.
  intros He H. induction H as [|p d ps ds Hp _ IH]; [constructor|].
  constructor.
  - rewrite He; [exact Hp | now left].
  - apply IH. intros q Hq. apply He. now right.
Qed.

(** When the run returns. *)
Lemma run_returns w e t filter entries testEntries missing :
  dirs (fsys w) e = Some entries ->
  dirs (fsys w) t = Some testEntries ->
  (fst (findMissingTests e t filter w) = Return missing <->
   exists contents,
     Readable (fsys w) (selectedPaths t filter testEntries) contents
     /\ missing
        = missingOf (exampleNames entries)
            (gathered (selectedPaths t filter testEntries) contents)).
Proof.
  intros He Ht. rewrite (@run_result w _ _ filter _ _ He Ht). split.
  - destruct (fst (scanAll (fsys w) (selectedPaths t filter testEntries) []))
      as [refs|err] eqn:S; [|discriminate].
    intros [= <-].
    destruct (PipelineFacts.scanAll_returns _ _ _ S) as (contents & Hc & ->).
    exists contents. auto.
  - intros (contents & Hc & ->).
    now rewrite (@PipelineFacts.scanAll_readable _ _ _ [] Hc).
Qed.

Lemma selectedPaths_in t filter entries p :
  In p (selectedPaths t filter entries) <->
  exists entry,
    In entry entries /\ selected filter entry = true
    /\ p = filepath.Join t (Name entry).
Proof.
  unfold selectedPaths. rewrite in_map_iff. split.
  - intros (entry & <- & H). apply filter_In in H as [H1 H2]. eauto.
  - intros (entry & H1 & H2 & ->). exists entry. split; [reflexivity|].
    apply filter_In. auto.
Qed.

(** The references of a file, by the tokens of its lines. *)
Lemma fileReferences_in file d x :
  In x (fileReferences file d) <->
  exists line token,
    In line (scannedLines file d)
    /\ regexp.MatchString regexp.sourceLine line = true
    /\ In token (quotedTokens line)
    /\ filepath.Base token = x.
Proof.
  unfold fileReferences. rewrite in_flat_map.
  pose proof (ScannerFacts.scannedLines_no_linefeed file d) as Hnl.
  rewrite Forall_forall in Hnl. split.
  - intros (line & Hl & Hx). unfold lineReferences in Hx.
    destruct (regexp.MatchString regexp.sourceLine line) eqn:Hm;
      [|contradiction].
    rewrite (QuotedFacts.FindAll_quotedTokens _ (Hnl _ Hl)) in Hx.
    apply in_map_iff in Hx as (token & Hb & Ht). eauto 8.
  - intros (line & token & Hl & Hm & Ht & <-). exists line.
    split; [exact Hl|]. unfold lineReferences. rewrite Hm.
    rewrite (QuotedFacts.FindAll_quotedTokens _ (Hnl _ Hl)).
    now apply in_map.
Qed.

Lemma missingOf_ext examples refs refs' :
  (forall x, In x examples -> (In x refs <-> In x refs')) ->
  missingOf examples refs = missingOf examples refs'.
Proof.
  intros H. unfold missingOf. apply filter_ext_in. intros x Hx. f_equal.
  destruct (slices.Contains refs x) eqn:A, (slices.Contains refs' x) eqn:B;
    try reflexivity.
  - apply StringsFacts.slices_Contains_spec, (H x Hx),
      StringsFacts.slices_Contains_spec in A. congruence.
  - apply StringsFacts.slices_Contains_spec, (H x Hx),
      StringsFacts.slices_Contains_spec in B. congruence.
Qed.

Lemma missingOf_nil examples : missingOf examples [] = examples.
Proof.
  unfold missingOf. induction examples as [|e es IH]; [reflexivity|].
  cbn [List.filter]. now rewrite IH.
Qed.

Lemma substring_trans a b c : Substring a b -> Substring b c -> Substring a c.
Proof.
  intros (p1 & q1 & ->) (p2 & q2 & ->).
  exists (p2 +++ p1), (q1 +++ q2).
  now rewrite !StrFacts.app_assoc.
Qed.

(** A scan over the files before one that does not open. *)
Lemma scanAll_app fs before rest contents tests :
  Readable fs before contents ->
  fst (scanAll fs (before ++ rest) tests)
  = fst (scanAll fs rest (tests ++ gathered before contents))
  /\ opens (snd (scanAll fs (before ++ rest) tests))
     = before ++ opens (snd (scanAll fs rest (tests ++ gathered before contents))).
Proof.
  intros H. revert tests. induction H as [|p d ps ds Hp _ IH]; intros tests.
  - simpl. now rewrite app_nil_r.
  - cbn [scanAll app]. rewrite Hp.
    destruct (IH (tests ++ fileReferences p d)) as [IH1 IH2].
    destruct (scanAll fs (ps ++ rest) (tests ++ fileReferences p d)) as [r evs].
    simpl in IH1, IH2. unfold gathered. cbn [combine flat_map fst snd].
    fold (gathered ps ds). rewrite app_assoc. split; [exact IH1|].
    cbn [opens]. rewrite PipelineFacts.opens_app, PipelineFacts.opens_logs.
    cbn [opens app]. now rewrite IH2.
Qed.

End PipelineMore.

(** X1.  What covers an example.  When the operation returns, an example
    directory is left out of the report exactly when some selected file
    has a scanned line that matches the pattern and holds a double-quoted
    token whose [filepath.Base] is the name of the example. *)
Theorem covered_iff_some_token_names_it
    (w : World) (examplesDirectory testsDirectory filter : string)
    (entries testEntries : list DirEntry) (missing : list string)
    (x : string) :
  dirs (fsys w) examplesDirectory = Some entries ->
  dirs (fsys w) testsDirectory = Some testEntries ->
  fst (findMissingTests examplesDirectory testsDirectory filter w)
  = Return missing ->
  In x (exampleNames entries) ->
  (~ In x missing <->
   exists entry d line token,
     In entry testEntries
     /\ selected filter entry = true
     /\ files (fsys w) (filepath.Join testsDirectory (Name entry)) = Some d
     /\ In line (scannedLines (filepath.Join testsDirectory (Name entry)) d)
     /\ regexp.MatchString regexp.sourceLine line = true
     /\ In token (quotedTokens line)
     /\ filepath.Base token = x).
Proof.
  intros He Ht Hr Hx.
  apply (@PipelineMore.run_returns w _ _ filter _ _ missing He Ht) in Hr
    as (contents & Hc & ->).
  rewrite PipelineFacts.missingOf_spec, (PipelineMore.gathered_in x Hc).
  split.
  - intros Hn.
    destruct (slices.Contains
                (gathered (selectedPaths testsDirectory filter testEntries)
                          contents) x) eqn:E.
    + apply StringsFacts.slices_Contains_spec,
        (PipelineMore.gathered_in x Hc) in E.
      destruct E as (p & d & Hp & Hd & Hin).
      apply PipelineMore.selectedPaths_in in Hp as (entry & H1 & H2 & ->).
      apply PipelineMore.fileReferences_in in Hin
        as (line & token & Hl & Hm & Htok & Hb).
      exists entry, d, line, token. auto 8.
    + exfalso. apply Hn. split; [exact Hx|]. intros Hin.
      apply (PipelineMore.gathered_in x Hc),
        StringsFacts.slices_Contains_spec in Hin. congruence.
  - intros (entry & d & line & token & H1 & H2 & Hd & Hl & Hm & Htok & Hb)
           [_ Hn].
    apply Hn. exists (filepath.Join testsDirectory (Name entry)), d.
    split; [apply PipelineMore.selectedPaths_in; eauto|].
    split; [exact Hd|].
    apply PipelineMore.fileReferences_in. eauto 8.
Qed.

Lemma covered_iff_some_token_names_it_witness :
  dirs Sample.endToEnd "examples"
  = Some [Sample.dir "advanced"; Sample.dir "basic"]
  /\ dirs Sample.endToEnd "tests" = Some [Sample.file "basic_test.cfg"]
  /\ In "basic" (exampleNames [Sample.dir "advanced"; Sample.dir "basic"])
  /\ exists token,
       In token (quotedTokens Sample.basicLine)
       /\ filepath.Base token = "basic".
Proof.
  split; [reflexivity|]. split; [reflexivity|].
  assert (Hin : In "basic"
                  (exampleNames [Sample.dir "advanced"; Sample.dir "basic"]))
    by (right; left; reflexivity).
  split; [exact Hin|].
  assert (Hn : ~ In "basic" ["advanced"])
    by (intros [H|[]]; discriminate H).
  destruct (proj1 (@covered_iff_some_token_names_it
                     (Sample.start Sample.endToEnd) "examples" "tests"
                     "_test.cfg" _ _ ["advanced"] "basic"
                     eq_refl eq_refl eq_refl Hin) Hn)
    as (entry & d & line & token & H1 & _ & Hd & Hl & _ & Htok & Hb).
  destruct H1 as [<-|[]].
  injection Hd as <-.
  destruct Hl as [<-|[]].
  exists token. split; [exact Htok | exact Hb].
Defined.

Lemma filter_none {A} (f : A -> bool) (l : list A) :
  (forall x, In x l -> f x = false) -> List.filter f l = [].
Proof.
  induction l as [|a l IH]; intros H; [reflexivity|].
  cbn [List.filter]. rewrite (H a) by now left.
  apply IH. intros x Hx. apply H. now right.
Qed.

(** X2.  Nothing selected.  When no entry of the tests directory is
    selected (the directory is empty, holds only directories, or no file
    name carries the filter) no file is opened and every example directory
    is reported, in listing order. *)
Theorem nothing_selected_all_missing
    (w : World) (examplesDirectory testsDirectory filter : string)
    (entries testEntries : list DirEntry) :
  dirs (fsys w) examplesDirectory = Some entries ->
  dirs (fsys w) testsDirectory = Some testEntries ->
  (forall entry, In entry testEntries -> selected filter entry = false) ->
  fst (findMissingTests examplesDirectory testsDirectory filter w)
  = Return (exampleNames entries)
  /\ opens (trace (snd (findMissingTests examplesDirectory testsDirectory
                          filter w)))
     = opens (trace w).
Proof.
  intros He Ht Hs.
  assert (E : selectedPaths testsDirectory filter testEntries = []).
  { unfold selectedPaths. now rewrite (filter_none _ _ Hs). }
  rewrite (@run_result w _ _ filter _ _ He Ht),
          (@run_opens w _ _ filter _ _ He Ht), E.
  simpl. now rewrite PipelineMore.missingOf_nil, app_nil_r.
Qed.

Lemma nothing_selected_all_missing_witness :
  fst (findMissingTests "examples" "tests" "_test.cfg"
         (Sample.start Sample.unfiltered))
  = Return ["advanced"; "basic"].
Proof.
  refine (proj1 (@nothing_selected_all_missing
                   (Sample.start Sample.unfiltered) "examples" "tests"
                   "_test.cfg" [Sample.dir "advanced"; Sample.dir "basic"]
                   [Sample.file "notes.txt"] eq_refl eq_refl _)).
  intros entry [<-|[]]. reflexivity.
Defined.

(** X3.  A file that cannot be opened.  When a selected file cannot be
    opened, the files listed before it having been read, the operation
    panics with the error of [os.Open] for that file, and no file listed
    after it is opened. *)
Theorem unopenable_file_aborts
    (w : World) (examplesDirectory testsDirectory filter : string)
    (entries testEntries : list DirEntry)
    (before after : list string) (p : string) (contents : list FileData) :
  dirs (fsys w) examplesDirectory = Some entries ->
  dirs (fsys w) testsDirectory = Some testEntries ->
  selectedPaths testsDirectory filter testEntries = before ++ p :: after ->
  Readable (fsys w) before contents ->
  files (fsys w) p = None ->
  fst (findMissingTests examplesDirectory testsDirectory filter w)
  = Panic (PathError "open" p)
  /\ opens (trace (snd (findMissingTests examplesDirectory testsDirectory
                          filter w)))
     = opens (trace w) ++ before ++ [p].
Proof.
  intros He Ht Hs Hb Hp.
  rewrite (@run_result w _ _ filter _ _ He Ht),
          (@run_opens w _ _ filter _ _ He Ht), Hs.
  destruct (@PipelineMore.scanAll_app (fsys w) before (p :: after) contents []
              Hb) as [E1 E2].
  rewrite E1, E2. cbn [scanAll]. rewrite Hp. split; reflexivity.
Qed.

Lemma unopenable_file_aborts_witness :
  fst (findMissingTests "examples" "tests" "_test.cfg"
         (Sample.start
            (Sample.tree [Sample.dir "a"]
               [Sample.file "a_test.cfg"; Sample.file "b_test.cfg";
                Sample.file "c_test.cfg"]
               [("tests/a_test.cfg", Sample.whole EmptyString);
                ("tests/c_test.cfg", Sample.whole EmptyString)])))
  = Panic (PathError "open" "tests/b_test.cfg")
  /\ opens (trace (snd (findMissingTests "examples" "tests" "_test.cfg"
         (Sample.start
            (Sample.tree [Sample.dir "a"]
               [Sample.file "a_test.cfg"; Sample.file "b_test.cfg";
                Sample.file "c_test.cfg"]
               [("tests/a_test.cfg", Sample.whole EmptyString);
                ("tests/c_test.cfg", Sample.whole EmptyString)])))))
     = ["tests/a_test.cfg"; "tests/b_test.cfg"].
Proof.
  refine (@unopenable_file_aborts
            (Sample.start
               (Sample.tree [Sample.dir "a"]
                  [Sample.file "a_test.cfg"; Sample.file "b_test.cfg";
                   Sample.file "c_test.cfg"]
                  [("tests/a_test.cfg", Sample.whole EmptyString);
                   ("tests/c_test.cfg", Sample.whole EmptyString)]))
            "examples" "tests" "_test.cfg" _ _
            ["tests/a_test.cfg"] ["tests/c_test.cfg"] "tests/b_test.cfg"
            [Sample.whole EmptyString] eq_refl eq_refl eq_refl _ eq_refl).
  constructor; [reflexivity | constructor].
Defined.

(** X4.  A wider filter.  When [filter'] occurs in [filter], every file
    selected by [filter] is selected by [filter']; so, when both runs
    return, every example reported with [filter'] is reported with
    [filter]: widening the filter never adds a missing example. *)
Theorem wider_filter_reports_fewer
    (w : World) (examplesDirectory testsDirectory filter filter' : string)
    (missing missing' : list string) :
  Substring filter' filter ->
  fst (findMissingTests examplesDirectory testsDirectory filter w)
  = Return missing ->
  fst (findMissingTests examplesDirectory testsDirectory filter' w)
  = Return missing' ->
  forall x, In x missing' -> In x missing.
Proof.
  intros Hsub Hr Hr' x Hx.
  destruct (dirs (fsys w) examplesDirectory) as [entries|] eqn:He.
  2:{ rewrite RunFacts.findMissingTests_run in Hr. unfold outcomeOf in Hr.
      rewrite He in Hr. discriminate Hr. }
  destruct (dirs (fsys w) testsDirectory) as [testEntries|] eqn:Ht.
  2:{ rewrite RunFacts.findMissingTests_run in Hr. unfold outcomeOf in Hr.
      rewrite He, Ht in Hr. discriminate Hr. }
  apply (@PipelineMore.run_returns w _ _ filter _ _ missing He Ht) in Hr
    as (contents & Hc & ->).
  apply (@PipelineMore.run_returns w _ _ filter' _ _ missing' He Ht) in Hr'
    as (contents' & Hc' & ->).
  apply PipelineFacts.missingOf_spec in Hx as [Hx Hn].
  apply PipelineFacts.missingOf_spec. split; [exact Hx|].
  intros Hin. apply Hn.
  apply (PipelineMore.gathered_in x Hc) in Hin as (p & d & Hp & Hd & Hin).
  apply (PipelineMore.gathered_in x Hc'). exists p, d.
  split; [|auto].
  apply PipelineMore.selectedPaths_in in Hp as (entry & H1 & H2 & ->).
  apply PipelineMore.selectedPaths_in. exists entry.
  split; [exact H1|]. split; [|reflexivity].
  apply PipelineFacts.selected_spec in H2 as [Hd' Hs].
  apply PipelineFacts.selected_spec. split; [exact Hd'|].
  exact (PipelineMore.substring_trans Hsub Hs).
Qed.

Lemma wider_filter_reports_fewer_witness :
  Substring EmptyString "_test.cfg"
  /\ forall x, In x ["basic"] -> In x ["advanced"; "basic"].
Proof.
  assert (S : Substring EmptyString "_test.cfg")
    by (exists EmptyString, "_test.cfg"; reflexivity).
  split; [exact S|].
  exact (@wider_filter_reports_fewer
           (Sample.start Sample.unfiltered) "examples" "tests"
           "_test.cfg" EmptyString ["advanced"; "basic"] ["basic"]
           S eq_refl eq_refl).
Defined.

(** X5.  The order of the tests listing.  The report depends on which
    entries the tests directory lists, not on their order or on
    repetitions: two worlds with the same files and the same examples,
    whose tests listings have the same members, give the same report. *)
Theorem report_ignores_listing_order
    (w w' : World) (examplesDirectory testsDirectory filter : string)
    (entries testEntries testEntries' : list DirEntry)
    (missing : list string) :
  (forall p, files (fsys w') p = files (fsys w) p) ->
  dirs (fsys w) examplesDirectory = Some entries ->
  dirs (fsys w') examplesDirectory = Some entries ->
  dirs (fsys w) testsDirectory = Some testEntries ->
  dirs (fsys w') testsDirectory = Some testEntries' ->
  (forall entry, In entry testEntries <-> In entry testEntries') ->
  fst (findMissingTests examplesDirectory testsDirectory filter w)
  = Return missing ->
  fst (findMissingTests examplesDirectory testsDirectory filter w')
  = Return missing.
Proof.
  intros Hf He He' Ht Ht' Hm Hr.
  apply (@PipelineMore.run_returns w _ _ filter _ _ missing He Ht) in Hr
    as (contents & Hc & ->).
  assert (Hp : forall p,
             In p (selectedPaths testsDirectory filter testEntries') <->
             In p (selectedPaths testsDirectory filter testEntries)).
  { intros p. rewrite !PipelineMore.selectedPaths_in.
    split; intros (entry & H1 & H2); exists entry;
      (split; [now apply Hm | exact H2]). }
  destruct (@PipelineMore.readable_exists (fsys w')
              (selectedPaths testsDirectory filter testEntries'))
    as [contents' Hc'].
  { intros p Hin. apply Hp in Hin.
    destruct (@PipelineMore.readable_in _ _ _ _ Hc Hin) as (d & Hd & _).
    rewrite Hf, Hd. discriminate. }
  apply (@PipelineMore.run_returns w' _ _ filter _ _ _ He' Ht').
  exists contents'. split; [exact Hc'|].
  apply PipelineMore.missingOf_ext. intros x _.
  rewrite (PipelineMore.gathered_in x Hc), (PipelineMore.gathered_in x Hc').
  split; intros (p & d & Hin & Hd & Hx); exists p, d.
  - split; [now apply Hp|]. split; [now rewrite Hf | exact Hx].
  - split; [now apply Hp|]. split; [now rewrite <- Hf | exact Hx].
Qed.

Lemma report_ignores_listing_order_witness :
  fst (findMissingTests "examples" "tests" "_test.cfg"
         (Sample.start
            (Sample.tree [Sample.dir "a"; Sample.dir "b"]
               [Sample.file "y_test.cfg"; Sample.file "x_test.cfg"]
               [("tests/x_test.cfg",
                 Sample.whole ("source = " +++ Sample.quote "./examples/a"));
                ("tests/y_test.cfg",
                 Sample.whole ("source = " +++ Sample.quote "./examples/a"))])))
  = Return ["b"].
Proof.
  refine (@report_ignores_listing_order
            (Sample.start
               (Sample.tree [Sample.dir "a"; Sample.dir "b"]
                  [Sample.file "x_test.cfg"; Sample.file "y_test.cfg"]
                  [("tests/x_test.cfg",
                    Sample.whole ("source = " +++ Sample.quote "./examples/a"));
                   ("tests/y_test.cfg",
                    Sample.whole ("source = " +++ Sample.quote "./examples/a"))]))
            (Sample.start
               (Sample.tree [Sample.dir "a"; Sample.dir "b"]
                  [Sample.file "y_test.cfg"; Sample.file "x_test.cfg"]
                  [("tests/x_test.cfg",
                    Sample.whole ("source = " +++ Sample.quote "./examples/a"));
                   ("tests/y_test.cfg",
                    Sample.whole ("source = " +++ Sample.quote "./examples/a"))]))
            "examples" "tests" "_test.cfg" _ _ _ ["b"]
            (fun p => eq_refl) eq_refl eq_refl eq_refl eq_refl _ eq_refl).
  intros entry. split.
  - intros [<-|[<-|[]]]; [right; left | left]; reflexivity.
  - intros [<-|[<-|[]]]; [right; left | left]; reflexivity.
Defined.

Module HandleFacts.

Lemma wellBracketed_logs fs held l tr :
  wellBracketed fs held (map EvLog l ++ tr) = wellBracketed fs held tr.
Proof. induction l as [|m l IH]; [reflexivity | exact IH]. Qed.

Lemma scanAll_wellBracketed fs paths tests :
  wellBracketed fs None (snd (scanAll fs paths tests)) = true.
Proof.
  revert tests. induction paths as [|p ps IH]; intros tests; [reflexivity|].
  cbn [scanAll]. destruct (files fs p) as [d|] eqn:Hp.
  - specialize (IH (tests ++ fileReferences p d)).
    destruct (scanAll fs ps (tests ++ fileReferences p d)) as [r evs].
    cbn [snd] in *. cbn [wellBracketed]. rewrite Hp.
    rewrite wellBracketed_logs. cbn [wellBracketed].
    now rewrite String.eqb_refl, IH.
  - cbn [snd wellBracketed]. now rewrite Hp.
Qed.

End HandleFacts.

(** X6.  No file is left open.  Whether the operation returns or panics,
    its events are well bracketed: a file is opened only when no other is
    held, a file that opens is closed before the next [os.Open], and none
    is held at the end. *)
Theorem every_opened_file_is_closed
    (w : World) (examplesDirectory testsDirectory filter : string) :
  exists events,
    trace (snd (findMissingTests examplesDirectory testsDirectory filter w))
    = trace w ++ events
    /\ wellBracketed (fsys w) None events = true.
Proof.
  rewrite RunFacts.findMissingTests_run.
  exists (snd (outcomeOf (fsys w) examplesDirectory testsDirectory filter)).
  split; [reflexivity|]. unfold outcomeOf.
  destruct (dirs (fsys w) examplesDirectory) as [entries|]; [|reflexivity].
  destruct (dirs (fsys w) testsDirectory) as [testEntries|]; [|reflexivity].
  pose proof (HandleFacts.scanAll_wellBracketed (fsys w)
                (selectedPaths testsDirectory filter testEntries) []) as H.
  destruct (scanAll (fsys w) (selectedPaths testsDirectory filter testEntries) [])
    as [r evs].
  exact H.
Qed.

(* ================================================================= *)
(** * Further properties of the scan of one file *)

Module ScanMore.
Import bufio.

Lemma split_app sep (a b : string) :
  Str.split sep (a +++ String sep b) = Str.split sep a ++ Str.split sep b.
Proof.
  induction a as [|c a IH]; simpl.
  - now rewrite Ascii.eqb_refl.
  - rewrite IH. destruct (Ascii.eqb c sep); [reflexivity|].
    pose proof (StrFacts.split_not_nil sep a) as Hne.
    destruct (Str.split sep a) as [|p ps]; [congruence | reflexivity].
Qed.




Lemma leb_length_app n (a b : string) :
  Nat.leb n (String.length a) = true ->
  Nat.leb n (String.length (a +++ b)) = true.
Proof.
  revert n. induction a as [|c a IH]; intros n H.
  - destruct n; [reflexivity | discriminate].
  - destruct n; [reflexivity|]. simpl in *. auto.
Qed.


Lemma lineReferences_empty : lineReferences EmptyString = [].
Proof. reflexivity. Qed.

Lemma scanPieces_next max readErr p x xs :
  scanPieces max readErr (p :: x :: xs)
  = if Nat.leb max (String.length p) then ([], Some ErrTooLong)
    else (dropCR p :: fst (scanPieces max readErr (x :: xs)),
          snd (scanPieces max readErr (x :: xs))).
Proof.
  change (scanPieces max readErr (p :: x :: xs))
    with (if Nat.leb max (String.length p) then ([], Some ErrTooLong)
          else let (tokens, err) := scanPieces max readErr (x :: xs) in
               (dropCR p :: tokens, err)).
  destruct (Nat.leb max (String.length p)); [reflexivity|].
  now destruct (scanPieces max readErr (x :: xs)).
Qed.

(** One more, empty, last piece changes no reference. *)
Lemma scanPieces_final_empty max readErr ps :
  ps <> [] ->
  flat_map lineReferences
    (fst (scanPieces max readErr (ps ++ [EmptyString])))
  = flat_map lineReferences (fst (scanPieces max readErr ps)).
Proof.
  induction ps as [|p ps IH]; intros Hne; [congruence|].
  destruct ps as [|q ps].
  - cbn [app scanPieces]. simpl (String.eqb EmptyString EmptyString).
    destruct (String.eqb p EmptyString) eqn:E.
    + apply String.eqb_eq in E. subst p.
      destruct (Nat.leb max (String.length EmptyString)); reflexivity.
    + destruct (Nat.leb max (String.length p)); [reflexivity|].
      cbn [fst flat_map]. reflexivity.
  - specialize (IH ltac:(discriminate)). cbn [app] in *.
    rewrite !(scanPieces_next max readErr p).
    destruct (Nat.leb max (String.length p)); [reflexivity|].
    destruct (scanPieces max readErr (q :: ps ++ [EmptyString])) as [ts e].
    destruct (scanPieces max readErr (q :: ps)) as [ts' e'].
    cbn [fst flat_map] in *. now rewrite IH.
Qed.

End ScanMore.



(** X8.  The last line feed is optional.  A file and the same file with
    one more line feed at its end give the same references: a last line
    without line feed is scanned like the others, and an empty last line
    gives nothing. *)
Theorem trailing_line_feed_is_optional
    (w w' : World) (file pattern examplesDirectory : string)
    (content : string) (broken : bool) :
  files (fsys w) file
  = Some {| delivered := content +++ String "010" EmptyString;
            fault := broken |} ->
  files (fsys w') file = Some {| delivered := content; fault := broken |} ->
  fst (searchFile file pattern examplesDirectory w)
  = fst (searchFile file pattern examplesDirectory w').
Proof.
  intros H H'. rewrite !RunFacts.searchFile_run, H, H'. cbn [fst]. f_equal.
  unfold fileReferences, scannedLines, bufio.NewScanner.
  cbn [os.fileData os.fileName delivered fault].
  rewrite ScanMore.split_app.
  change (Str.split "010" EmptyString) with [EmptyString].
  pose proof (@ScanMore.scanPieces_final_empty bufio.MaxScanTokenSize
                (if broken then Some (ErrRead file) else None)
                (Str.split "010" content)
                (StrFacts.split_not_nil "010" content)) as E.
  destruct (bufio.scanPieces bufio.MaxScanTokenSize
              (if broken then Some (ErrRead file) else None)
              (Str.split "010" content ++ [EmptyString])) as [ts e].
  destruct (bufio.scanPieces bufio.MaxScanTokenSize
              (if broken then Some (ErrRead file) else None)
              (Str.split "010" content)) as [ts' e'].
  exact E.
Qed.

Lemma trailing_line_feed_is_optional_witness :
  fst (searchFile "tests/basic_test.cfg" EmptyString EmptyString
         (Sample.start Sample.endToEnd))
  = fst (searchFile "tests/basic_test.cfg" EmptyString EmptyString
           (Sample.start
              (Sample.tree [] []
                 [("tests/basic_test.cfg", Sample.whole Sample.basicLine)]))).
Proof.
  exact (@trailing_line_feed_is_optional
           (Sample.start Sample.endToEnd)
           (Sample.start
              (Sample.tree [] []
                 [("tests/basic_test.cfg", Sample.whole Sample.basicLine)]))
           "tests/basic_test.cfg" EmptyString EmptyString
           Sample.basicLine false eq_refl eq_refl).
Defined.

Module BaseMore.
Import filepath.

(** Every path is a path that does not end with a slash, followed by
    slashes. *)
Lemma trailing_slashes m :
  exists t k,
    m = t +++ Str.replicate k Separator /\ Str.last t <> Some Separator.
Proof.
  induction m as [|c m IH].
  - exists EmptyString, 0. split; [reflexivity | discriminate].
  - destruct IH as (t & k & -> & Ht). destruct t as [|c' t].
    + destruct (Ascii.eqb c Separator) eqn:E.
      * apply Ascii.eqb_eq in E. subst c.
        exists EmptyString, (S k). split; [reflexivity | discriminate].
      * exists (String c EmptyString), k. split; [reflexivity|].
        simpl. intros [= ->]. now rewrite Ascii.eqb_refl in E.
    + exists (String c (String c' t)), k. split; [reflexivity | exact Ht].
Qed.

Lemma last_in {A} (l : list A) d : l <> [] -> In (List.last l d) l.
Proof.
  induction l as [|a l IH]; intros H; [congruence|].
  destruct l as [|b l]; [now left|].
  right. apply IH. discriminate.
Qed.

Lemma lastSegment_no_slash t : Str.mem Separator (lastSegment t) = false.
Proof.
  unfold lastSegment.
  pose proof (StrFacts.split_pieces_no_sep "/" t) as H.
  rewrite Forall_forall in H. apply H.
  apply last_in. apply StrFacts.split_not_nil.
Qed.

(** [Base] gives one path element: not empty, and without slash unless it
    is the root. *)
Lemma Base_shape m :
  Base m <> EmptyString
  /\ (Str.mem Separator (Base m) = false
      \/ Base m = String Separator EmptyString).
Proof.
  destruct (trailing_slashes m) as (t & k & -> & Ht).
  rewrite (@PathFacts.Base_spec t k Ht).
  destruct (String.eqb t EmptyString) eqn:E.
  - destruct (Nat.eqb k 0); split; try discriminate; auto.
  - split.
    + intros H. apply PathFacts.lastSegment_empty in H as [H|H];
        [|contradiction].
      subst t. discriminate.
    + left. apply lastSegment_no_slash.
Qed.

End BaseMore.

(** X9.  References are single path elements.  Every reference that
    [searchFile] returns is not empty and holds no slash, unless it is the
    root [/] itself: a quoted path can only name an example by its last
    element. *)
Theorem references_are_path_elements
    (w : World) (file pattern examplesDirectory : string)
    (refs : list string) (r : string) :
  fst (searchFile file pattern examplesDirectory w) = Return refs ->
  In r refs ->
  r <> EmptyString /\ (Str.mem "/" r = false \/ r = "/").
Proof.
  rewrite RunFacts.searchFile_run.
  destruct (files (fsys w) file) as [d|]; [|discriminate].
  intros [= <-] Hin.
  apply PipelineMore.fileReferences_in in Hin as (line & token & _ & _ & _ & <-).
  apply BaseMore.Base_shape.
Qed.

Lemma references_are_path_elements_witness :
  "basic" <> EmptyString
  /\ (Str.mem "/" "basic" = false \/ "basic" = "/").
Proof.
  exact (@references_are_path_elements
           (Sample.start Sample.endToEnd) "tests/basic_test.cfg"
           EmptyString EmptyString ["basic"] "basic"
           eq_refl (or_introl eq_refl)).
Defined.

(* ================================================================= *)
(** * The data source's [Read] and the provider *)

Module DiagFacts.
Import diag.

Lemma Contains_error diags d :
  Contains diags d = true -> isError d = true -> HasError diags = true.
Proof.
  unfold Contains, HasError. rewrite !existsb_exists.
  intros (x & Hx & E) Hd. exists x. split; [exact Hx|].
  unfold Equal in E. apply andb_true_iff in E as [E _].
  apply andb_true_iff in E as [E _]. apply Bool.eqb_prop in E. congruence.
Qed.

(** Appending keeps the errors of both sides, and adds none. *)
Lemma HasError_Append diags more :
  HasError (Append diags more) = HasError diags || HasError more.
Proof.
  unfold Append. revert diags.
  induction more as [|d more IH]; intros diags; simpl.
  - now rewrite orb_false_r.
  - rewrite IH. destruct (Contains diags d) eqn:C.
    + destruct (isError d) eqn:E; simpl; [|reflexivity].
      now rewrite (Contains_error _ _ C E).
    + unfold HasError at 1. rewrite existsb_app. simpl.
      now rewrite orb_false_r, orb_assoc.
Qed.

End DiagFacts.

(** X10.  A configuration that cannot be read.  When the response already
    holds an error or [req.Config.Get] reports one, [Read] returns at once:
    it lists no directory, opens no file, logs nothing and leaves the
    state as it was. *)
Theorem Read_stops_on_config_error
    (ListT : Type)
    (ListValueFrom : list string -> ListT * diag.Diagnostics)
    (StateSet : ExamplesValidationDataSource.Model ListT -> diag.Diagnostics)
    (req : ExamplesValidationDataSource.ReadRequest ListT)
    (resp : ExamplesValidationDataSource.ReadResponse ListT)
    (w : World) :
  diag.HasError (ExamplesValidationDataSource.Diagnostics resp) = true
  \/ diag.HasError (snd (ExamplesValidationDataSource.ConfigGet req)) = true ->
  ExamplesValidationDataSource.Read ListValueFrom StateSet req resp w
  = (Return
       {| ExamplesValidationDataSource.State :=
            ExamplesValidationDataSource.State resp;
          ExamplesValidationDataSource.Diagnostics :=
            diag.Append (ExamplesValidationDataSource.Diagnostics resp)
                        (snd (ExamplesValidationDataSource.ConfigGet req)) |},
     w).
Proof.
  intros H. unfold ExamplesValidationDataSource.Read.
  destruct (ExamplesValidationDataSource.ConfigGet req) as [data got].
  cbn [snd ExamplesValidationDataSource.Diagnostics] in *.
  rewrite DiagFacts.HasError_Append.
  destruct H as [-> | ->]; [|rewrite orb_true_r]; reflexivity.
Qed.

Lemma Read_stops_on_config_error_witness :
  ExamplesValidationDataSource.Read SampleRead.listValueFrom
    SampleRead.stateSet SampleRead.badRequest SampleRead.fresh
    (Sample.start Sample.endToEnd)
  = (Return
       {| ExamplesValidationDataSource.State := None;
          ExamplesValidationDataSource.Diagnostics := [SampleRead.unreadable] |},
     Sample.start Sample.endToEnd).
Proof.
  exact (@Read_stops_on_config_error _ SampleRead.listValueFrom
           SampleRead.stateSet SampleRead.badRequest SampleRead.fresh
           (Sample.start Sample.endToEnd) (or_intror eq_refl)).
Defined.



Module SchemaFacts.
Import ExamplesValidationDataSource.

Lemma eqb_false a b :
  a <> b -> String.eqb a b = false /\ String.eqb b a = false.
Proof.
  intros H. split; apply String.eqb_neq; [exact H | congruence].
Qed.

Ltac by_attribute_name name :=
  destruct (String.eqb_spec name "id") as [->|N1];
  [|destruct (String.eqb_spec name "examples_directory") as [->|N2];
    [|destruct (String.eqb_spec name "tests_directory") as [->|N3];
      [|destruct (String.eqb_spec name "filter") as [->|N4];
        [|destruct (String.eqb_spec name "missing_tests") as [->|N5];
          [|apply eqb_false in N1 as [N1 N1'];
            apply eqb_false in N2 as [N2 N2'];
            apply eqb_false in N3 as [N3 N3'];
            apply eqb_false in N4 as [N4 N4'];
            apply eqb_false in N5 as [N5 N5']]]]]].

(** The fields of the model are the attributes of the schema. *)
Lemma attribute_none ListT (data : Model ListT) name :
  attribute data name = None <-> schema.lookup Schema name = None.
Proof.
  by_attribute_name name; try (split; discriminate).
  unfold attribute, schema.lookup, Schema. cbn [schema.Attributes find fst].
  rewrite N1, N2, N3, N4, N5, N1', N2', N3', N4', N5'. split; reflexivity.
Qed.

(** The attributes that are not computed are the three inputs. *)
Lemma not_computed name a :
  schema.lookup Schema name = Some a -> schema.Computed a = false ->
  name = "examples_directory" \/ name = "tests_directory" \/ name = "filter".
Proof.
  by_attribute_name name; auto.
  - intros [= <-]. discriminate.
  - intros [= <-]. discriminate.
  - unfold schema.lookup, Schema. cbn [schema.Attributes find fst].
    rewrite N1', N2', N3', N4', N5'. discriminate.
Qed.

End SchemaFacts.

(** X12.  What [Read] writes.  When the configuration is read without
    error, the scan returns and the report converts without error,
    [Read] hands to [resp.State.Set] a value whose [id] is
    [examples-validation] and whose [missing_tests] is the converted
    report; every attribute that the schema does not mark as computed is
    as in the configuration, and the value has exactly the attributes of
    the schema. *)
Theorem Read_sets_computed_attributes_only
    (ListT : Type)
    (ListValueFrom : list string -> ListT * diag.Diagnostics)
    (StateSet : ExamplesValidationDataSource.Model ListT -> diag.Diagnostics)
    (req : ExamplesValidationDataSource.ReadRequest ListT)
    (resp : ExamplesValidationDataSource.ReadResponse ListT)
    (w : World) (missing : list string) :
  diag.HasError (ExamplesValidationDataSource.Diagnostics resp) = false ->
  diag.HasError (snd (ExamplesValidationDataSource.ConfigGet req)) = false ->
  fst (findMissingTests
         (types.ValueString
            (ExamplesValidationDataSource.ExamplesDirectory
               (fst (ExamplesValidationDataSource.ConfigGet req))))
         (types.ValueString
            (ExamplesValidationDataSource.TestsDirectory
               (fst (ExamplesValidationDataSource.ConfigGet req))))
         (types.ValueString
            (ExamplesValidationDataSource.Filter
               (fst (ExamplesValidationDataSource.ConfigGet req))))
         w)
  = Return missing ->
  diag.HasError (snd (ListValueFrom missing)) = false ->
  exists data diags,
    fst (ExamplesValidationDataSource.Read ListValueFrom StateSet req resp w)
    = Return {| ExamplesValidationDataSource.State := Some data;
                ExamplesValidationDataSource.Diagnostics := diags |}
    /\ ExamplesValidationDataSource.attribute data "id"
       = Some (ExamplesValidationDataSource.VString ListT
                 (types.StringValue "examples-validation"))
    /\ ExamplesValidationDataSource.attribute data "missing_tests"
       = Some (ExamplesValidationDataSource.VList
                 (fst (ListValueFrom missing)))
    /\ (forall name a,
          schema.lookup ExamplesValidationDataSource.Schema name = Some a ->
          schema.Computed a = false ->
          ExamplesValidationDataSource.attribute data name
          = ExamplesValidationDataSource.attribute
              (fst (ExamplesValidationDataSource.ConfigGet req)) name)
    /\ (forall name,
          ExamplesValidationDataSource.attribute data name = None <->
          schema.lookup ExamplesValidationDataSource.Schema name = None).
Proof.
  intros H1 H2 Hr Hl. unfold ExamplesValidationDataSource.Read.
  destruct (ExamplesValidationDataSource.ConfigGet req) as [data got].
  cbn [fst snd ExamplesValidationDataSource.Diagnostics
       ExamplesValidationDataSource.ExamplesDirectory
       ExamplesValidationDataSource.TestsDirectory
       ExamplesValidationDataSource.Filter
       ExamplesValidationDataSource.Id] in *.
  rewrite DiagFacts.HasError_Append, H1, H2. cbn [orb].
  unfold bind at 1.
  destruct (findMissingTests
              (types.ValueString
                 (ExamplesValidationDataSource.ExamplesDirectory data))
              (types.ValueString
                 (ExamplesValidationDataSource.TestsDirectory data))
              (types.ValueString (ExamplesValidationDataSource.Filter data)) w)
    as [r w'].
  cbn [fst] in Hr. subst r.
  destruct (ListValueFrom missing) as [list diags].
  cbn [fst snd ExamplesValidationDataSource.Diagnostics] in *.
  rewrite !DiagFacts.HasError_Append, H1, H2, Hl. cbn [orb].
  unfold bind, tflog_Trace, ret. cbn [fst].
  eexists. eexists. split; [reflexivity|].
  split; [reflexivity|]. split; [reflexivity|]. split.
  - intros name a Hn Hc.
    destruct (SchemaFacts.not_computed _ Hn Hc) as [->|[->| ->]]; reflexivity.
  - intros name. apply SchemaFacts.attribute_none.
Qed.

Lemma Read_sets_computed_attributes_only_witness :
  exists data diags,
    fst (ExamplesValidationDataSource.Read SampleRead.listValueFrom
           SampleRead.stateSet
           (SampleRead.request "examples" "tests" "_test.cfg")
           SampleRead.fresh (Sample.start Sample.endToEnd))
    = Return {| ExamplesValidationDataSource.State := Some data;
                ExamplesValidationDataSource.Diagnostics := diags |}
    /\ ExamplesValidationDataSource.attribute data "missing_tests"
       = Some (ExamplesValidationDataSource.VList ["advanced"])
    /\ ExamplesValidationDataSource.attribute data "filter"
       = Some (ExamplesValidationDataSource.VString (list string)
                 (types.StringValue "_test.cfg")).
Proof.
  destruct (@Read_sets_computed_attributes_only _ SampleRead.listValueFrom
              SampleRead.stateSet
              (SampleRead.request "examples" "tests" "_test.cfg")
              SampleRead.fresh (Sample.start Sample.endToEnd) ["advanced"]
              eq_refl eq_refl eq_refl eq_refl)
    as (data & diags & Hr & _ & Hm & Hk & _).
  exists data, diags. split; [exact Hr|]. split; [exact Hm|].
  exact (Hk "filter" _ eq_refl eq_refl).
Defined.

Module MetadataFacts.



End MetadataFacts.


(** X14.  When [Read] writes the state.  If [Read] returns with a state
    other than the one it was given, then the configuration was read
    without error, the scan returned a report and the report converted
    without error: no state is written after a failure. *)
Theorem Read_writes_state_only_on_success
    (ListT : Type)
    (ListValueFrom : list string -> ListT * diag.Diagnostics)
    (StateSet : ExamplesValidationDataSource.Model ListT -> diag.Diagnostics)
    (req : ExamplesValidationDataSource.ReadRequest ListT)
    (resp resp' : ExamplesValidationDataSource.ReadResponse ListT)
    (w : World) :
  fst (ExamplesValidationDataSource.Read ListValueFrom StateSet req resp w)
  = Return resp' ->
  ExamplesValidationDataSource.State resp'
  <> ExamplesValidationDataSource.State resp ->
  diag.HasError (ExamplesValidationDataSource.Diagnostics resp) = false
  /\ diag.HasError (snd (ExamplesValidationDataSource.ConfigGet req)) = false
  /\ exists missing,
       fst (findMissingTests
              (types.ValueString
                 (ExamplesValidationDataSource.ExamplesDirectory
                    (fst (ExamplesValidationDataSource.ConfigGet req))))
              (types.ValueString
                 (ExamplesValidationDataSource.TestsDirectory
                    (fst (ExamplesValidationDataSource.ConfigGet req))))
              (types.ValueString
                 (ExamplesValidationDataSource.Filter
                    (fst (ExamplesValidationDataSource.ConfigGet req))))
              w)
       = Return missing
       /\ diag.HasError (snd (ListValueFrom missing)) = false.
Proof.
  unfold ExamplesValidationDataSource.Read.
  destruct (ExamplesValidationDataSource.ConfigGet req) as [data got].
  cbn [fst snd ExamplesValidationDataSource.Diagnostics
       ExamplesValidationDataSource.ExamplesDirectory
       ExamplesValidationDataSource.TestsDirectory
       ExamplesValidationDataSource.Filter
       ExamplesValidationDataSource.Id].
  rewrite DiagFacts.HasError_Append.
  destruct (diag.HasError (ExamplesValidationDataSource.Diagnostics resp)).
  { cbn [orb]. unfold ret. cbn [fst]. intros [= <-] H. now contradiction H. }
  destruct (diag.HasError got).
  { cbn [orb]. unfold ret. cbn [fst]. intros [= <-] H. now contradiction H. }
  cbn [orb]. unfold bind at 1.
  destruct (findMissingTests
              (types.ValueString
                 (ExamplesValidationDataSource.ExamplesDirectory data))
              (types.ValueString
                 (ExamplesValidationDataSource.TestsDirectory data))
              (types.ValueString (ExamplesValidationDataSource.Filter data)) w)
    as [[missing|err] w']; [|discriminate].
  destruct (ListValueFrom missing) as [list diags] eqn:El.
  cbn [fst snd ExamplesValidationDataSource.Diagnostics].
  destruct (diag.HasError
              (diag.Append
                 (diag.Append (ExamplesValidationDataSource.Diagnostics resp) got)
                 diags)) eqn:E2.
  { unfold ret. cbn [fst]. intros [= <-] H. now contradiction H. }
  intros _ _. split; [reflexivity|]. split; [reflexivity|].
  exists missing. split; [reflexivity|]. rewrite El. cbn [snd].
  rewrite DiagFacts.HasError_Append in E2.
  now apply orb_false_iff in E2 as [_ E2].
Qed.

Lemma Read_writes_state_only_on_success_witness :
  exists missing,
    fst (findMissingTests "examples" "tests" "_test.cfg"
           (Sample.start Sample.endToEnd))
    = Return missing.
Proof.
  assert (H : Some
                {| ExamplesValidationDataSource.Id :=
                     types.StringValue "examples-validation";
                   ExamplesValidationDataSource.ExamplesDirectory :=
                     types.StringValue "examples";
                   ExamplesValidationDataSource.TestsDirectory :=
                     types.StringValue "tests";
                   ExamplesValidationDataSource.Filter :=
                     types.StringValue "_test.cfg";
                   ExamplesValidationDataSource.MissingTests := ["advanced"] |}
              <> ExamplesValidationDataSource.State SampleRead.fresh)
    by discriminate.
  destruct (@Read_writes_state_only_on_success _ SampleRead.listValueFrom
              SampleRead.stateSet
              (SampleRead.request "examples" "tests" "_test.cfg")
              SampleRead.fresh _ (Sample.start Sample.endToEnd) eq_refl H)
    as (_ & _ & missing & Hm & _).
  exists missing. exact Hm.
Defined.

Module LogFacts.

Lemma logs_app a b : logs (a ++ b) = logs a ++ logs b.
Proof.
  induction a as [|e a IH]; [reflexivity|].
  destruct e; simpl; rewrite IH; reflexivity.
Qed.

Lemma logs_logs l : logs (map EvLog l) = l.
Proof. induction l as [|m l IH]; simpl; [reflexivity | now rewrite IH]. Qed.

Lemma scanAll_logs fs paths contents tests :
  Readable fs paths contents ->
  logs (snd (scanAll fs paths tests))
  = flat_map (fun pd => fst pd :: fileReferences (fst pd) (snd pd))
             (combine paths contents).
Proof.
  intros H. revert tests. induction H as [|p d ps ds Hp _ IH]; intros tests;
    [reflexivity|].
  cbn [scanAll]. rewrite Hp. specialize (IH (tests ++ fileReferences p d)).
  destruct (scanAll fs ps (tests ++ fileReferences p d)) as [r evs].
  cbn [snd] in *. cbn [logs]. rewrite logs_app, logs_logs. cbn [logs].
  cbn [combine flat_map fst snd app]. now rewrite IH.
Qed.

End LogFacts.

(** X15.  What is logged.  When every selected file opens, the operation
    logs its constant source-filter line, which does not depend on
    the filter given, and then for each selected file, in
    listing order, its path followed by every reference extracted from
    it, whether or not an example has that name. *)
Theorem log_lists_files_and_references
    (w : World) (examplesDirectory testsDirectory filter : string)
    (entries testEntries : list DirEntry) (contents : list FileData) :
  dirs (fsys w) examplesDirectory = Some entries ->
  dirs (fsys w) testsDirectory = Some testEntries ->
  Readable (fsys w) (selectedPaths testsDirectory filter testEntries) contents ->
  logs (trace (snd (findMissingTests examplesDirectory testsDirectory
                      filter w)))
  = logs (trace w)
    ++ ("Source Filter: 'source = " +++ String dquote "./examples'")
    :: flat_map (fun pd => fst pd :: fileReferences (fst pd) (snd pd))
         (combine (selectedPaths testsDirectory filter testEntries) contents).
Proof.
  intros He Ht Hc. rewrite RunFacts.findMissingTests_run. unfold outcomeOf.
  rewrite He, Ht.
  pose proof (@LogFacts.scanAll_logs _ _ _ [] Hc) as E.
  destruct (scanAll (fsys w) (selectedPaths testsDirectory filter testEntries) [])
    as [r evs].
  cbn [snd] in *. cbn [extend trace]. rewrite LogFacts.logs_app.
  cbn [logs]. now rewrite E.
Qed.

Lemma log_lists_files_and_references_witness :
  logs (trace (snd (findMissingTests "examples" "tests" "_test.cfg"
                      (Sample.start Sample.endToEnd))))
  = ["Source Filter: 'source = " +++ String dquote "./examples'";
     "tests/basic_test.cfg"; "basic"].
Proof.
  refine (@log_lists_files_and_references
            (Sample.start Sample.endToEnd) "examples" "tests" "_test.cfg"
            _ _ [Sample.whole (Sample.basicLine +++ Sample.lf)]
            eq_refl eq_refl _).
  constructor; [reflexivity | constructor].
Defined.

Module ReturnFacts.
Import bufio.

Lemma split_withCarriageReturns content :
  Str.split "010" (withCarriageReturns content)
  = returnsAdded (Str.split "010" content).
Proof.
  induction content as [|c s IH]; [reflexivity|].
  pose proof (StrFacts.split_not_nil "010" s) as Hne.
  cbn [withCarriageReturns]. destruct (Ascii.eqb c "010") eqn:E.
  - change (Str.split "010" (String "013" (String "010" (withCarriageReturns s))))
      with (match Str.split "010" (String "010" (withCarriageReturns s)) with
            | p :: ps => String "013" p :: ps
            | [] => [String "013" EmptyString]
            end).
    change (Str.split "010" (String "010" (withCarriageReturns s)))
      with (EmptyString :: Str.split "010" (withCarriageReturns s)).
    rewrite IH. cbn [Str.split]. rewrite E.
    destruct (Str.split "010" s) as [|p ps]; [congruence | reflexivity].
  - cbn [Str.split]. rewrite E, IH.
    destruct (Str.split "010" s) as [|p ps]; [congruence|].
    destruct ps as [|q ps]; reflexivity.
Qed.

Lemma dropCR_snoc p : dropCR (p +++ String "013" EmptyString) = p.
Proof.
  induction p as [|c p IH]; [reflexivity|].
  change (dropCR (String c (p +++ String "013" EmptyString)) = String c p).
  destruct (p +++ String "013" EmptyString) as [|x xs] eqn:E.
  - destruct p; discriminate.
  - change (String c (dropCR (String x xs)) = String c p). now rewrite IH.
Qed.

Lemma dropCR_plain p :
  match Str.last p with Some c => Ascii.eqb c "013" | None => false end = false ->
  dropCR p = p.
Proof.
  induction p as [|c p IH]; [reflexivity|]. destruct p as [|x xs].
  - simpl. intros ->. reflexivity.
  - intros H. change (String c (dropCR (String x xs)) = String c (String x xs)).
    now rewrite (IH H).
Qed.

Lemma leb_length_snoc n (p : string) :
  Nat.leb n (String.length (p +++ String "013" EmptyString)) = false ->
  Nat.leb n (String.length p) = false.
Proof.
  intros H. destruct (Nat.leb n (String.length p)) eqn:E; [|reflexivity].
  now rewrite (@ScanMore.leb_length_app n p (String "013" EmptyString) E) in H.
Qed.

(** With the carriage returns the scanner yields the same lines. *)
Lemma scanPieces_returnsAdded readErr ps :
  forallb plainLine (removelast ps) = true ->
  fst (scanPieces MaxScanTokenSize readErr (returnsAdded ps))
  = fst (scanPieces MaxScanTokenSize readErr ps).
Proof.
  induction ps as [|p ps IH]; [reflexivity|].
  destruct ps as [|q ps]; [reflexivity|].
  change (removelast (p :: q :: ps)) with (p :: removelast (q :: ps)).
  cbn [forallb]. intros H. apply andb_true_iff in H as [Hp Hps].
  specialize (IH Hps).
  change (returnsAdded (p :: q :: ps))
    with ((p +++ String "013" EmptyString) :: returnsAdded (q :: ps)).
  unfold plainLine, fitsBuffer in Hp.
  apply andb_true_iff in Hp as [Hfit Hcr].
  apply negb_true_iff in Hfit, Hcr.
  destruct (returnsAdded (q :: ps)) as [|x xs] eqn:E.
  - destruct ps; discriminate E.
  - rewrite !ScanMore.scanPieces_next, Hfit, (@leb_length_snoc _ _ Hfit).
    cbn [fst]. now rewrite dropCR_snoc, (@dropCR_plain _ Hcr), IH.
Qed.

End ReturnFacts.

(** X16.  Carriage returns before line feeds.  A file whose lines, but
    possibly the last, end with a carriage return and a line feed gives
    the same references as the file with line feeds only, as long as each
    of these lines fits the buffer with its carriage return and does not
    end with a carriage return of its own. *)
Theorem carriage_returns_are_dropped
    (w w' : World) (file pattern examplesDirectory : string)
    (content : string) (broken : bool) :
  files (fsys w) file = Some {| delivered := content; fault := broken |} ->
  files (fsys w') file
  = Some {| delivered := withCarriageReturns content; fault := broken |} ->
  forallb plainLine (removelast (Str.split "010" content)) = true ->
  fst (searchFile file pattern examplesDirectory w')
  = fst (searchFile file pattern examplesDirectory w).
Proof.
  intros H H' Hp. rewrite !RunFacts.searchFile_run, H, H'. cbn [fst]. f_equal.
  unfold fileReferences, scannedLines, bufio.NewScanner.
  cbn [os.fileData os.fileName delivered fault].
  rewrite ReturnFacts.split_withCarriageReturns.
  pose proof (@ReturnFacts.scanPieces_returnsAdded
                (if broken then Some (ErrRead file) else None) _ Hp) as E.
  destruct (bufio.scanPieces bufio.MaxScanTokenSize
              (if broken then Some (ErrRead file) else None)
              (returnsAdded (Str.split "010" content))) as [ts e].
  destruct (bufio.scanPieces bufio.MaxScanTokenSize
              (if broken then Some (ErrRead file) else None)
              (Str.split "010" content)) as [ts' e'].
  cbn [fst bufio.tokens] in *. now rewrite E.
Qed.

Lemma carriage_returns_are_dropped_witness :
  fst (searchFile "tests/basic_test.cfg" EmptyString EmptyString
         (Sample.start
            (Sample.tree [] []
               [("tests/basic_test.cfg",
                 Sample.whole
                   (Sample.basicLine +++ String "013" Sample.lf))])))
  = fst (searchFile "tests/basic_test.cfg" EmptyString EmptyString
           (Sample.start Sample.endToEnd)).
Proof.
  assert (H : forallb plainLine
                (removelast (Str.split "010" (Sample.basicLine +++ Sample.lf)))
              = true) by (vm_compute; reflexivity).
  exact (@carriage_returns_are_dropped
           (Sample.start Sample.endToEnd)
           (Sample.start
              (Sample.tree [] []
                 [("tests/basic_test.cfg",
                   Sample.whole
                     (Sample.basicLine +++ String "013" Sample.lf))]))
           "tests/basic_test.cfg" EmptyString EmptyString
           (Sample.basicLine +++ Sample.lf) false eq_refl eq_refl H).
Defined.
